(** * EC2 workday scheduler: a shallow embedding of [Ec2-start-stop-instances.py]

    The script is a Lambda handler.  At import time it resolves an SNS topic
    ARN from the SSM parameter store; at every invocation it lists the
    instances tagged [Reboot=WORKDAY], starts the stopped ones inside the
    window 03:30:00 <= t < 08:00:00 (UTC), stops the running ones outside of
    it, and publishes one report per action taken.

    The provider (SSM, EC2, SNS), the clock and the two formatting routines
    of the Python runtime the script relies on are gathered in a [platform]
    record.  Calls are recorded, in order, as a list of [effect]s, so that
    the statements below can speak about which API calls a run performs. *)

From Stdlib Require Import List String Ascii Bool Arith Lia.
Import ListNotations.
Open Scope string_scope.

(** ** Values *)

(** [datetime.time]: a naive time of day.  Python orders naive times as the
    tuples (hour, minute, second, microsecond). *)
Record time := mk_time {
  hour : nat;
  minute : nat;
  second : nat;
  microsecond : nat
}.

Definition time_cmp (a b : time) : comparison :=
  match Nat.compare (hour a) (hour b) with
  | Eq =>
      match Nat.compare (minute a) (minute b) with
      | Eq =>
          match Nat.compare (second a) (second b) with
          | Eq => Nat.compare (microsecond a) (microsecond b)
          | c => c
          end
      | c => c
      end
  | c => c
  end.

Definition time_le (a b : time) : bool :=
  match time_cmp a b with Gt => false | _ => true end.

Definition time_lt (a b : time) : bool :=
  match time_cmp a b with Lt => true | _ => false end.

(** [datetime.datetime] in UTC: a day number and the time of that day
    ([dt_time] is the method [.time()]). *)
Record datetime := mk_datetime {
  dt_day : nat;
  dt_time : time
}.

(** One element of [instance['Tags']]. *)
Record tag := mk_tag {
  Key : string;
  Value : string
}.

(** [instance['State']]. *)
Record instance_state_t := mk_state {
  Name : string
}.

(** One element of [reservation['Instances']].  [InstanceId] and [State] are
    indexed with [[...]] by the script; the other three are optional (read
    with [.get] or guarded by [in]). *)
Record instance := mk_instance {
  InstanceId : string;
  State : instance_state_t;
  PrivateIpAddress : option string;
  InstanceType : option string;
  Tags : option (list tag)
}.

Record reservation := mk_reservation {
  Instances : list instance
}.

Record describe_response := mk_describe_response {
  Reservations : list reservation
}.

(** One element of the [Filters] argument of [describe_instances]. *)
Record ec2_filter := mk_filter {
  FilterName : string;
  FilterValues : list string
}.

(** The dictionary returned by the handler. *)
Record handler_result := mk_result {
  statusCode : nat;
  body : string
}.

(** An exception of class [Exception], kept as its [str(e)]. *)
Definition exn : Type := string.

(** ** The platform *)

(** The outcome of a call may depend on how many calls of its kind were made
    before it: the n-th read of the clock, the n-th state change, the n-th
    publish.  [None] is a call that returns, [Some e] one that raises [e].
    [isoformat] is [datetime.isoformat] and [seconds_2f a b] is the text of
    [f"{(b - a).total_seconds():.2f}"]. *)
Record platform := mk_platform {
  environ : string -> option string;
  get_parameter : string -> exn + string;
  describe_instances : list ec2_filter -> exn + describe_response;
  utcnow : nat -> datetime;
  start_instances : nat -> list string -> option exn;
  stop_instances : nat -> list string -> option exn;
  publish : nat -> string -> string -> string -> option exn;
  isoformat : datetime -> string;
  seconds_2f : datetime -> datetime -> string
}.

Record world := mk_world {
  clock_reads : nat;
  state_changes : nat;
  publishes : nat
}.

Definition boot : world := mk_world 0 0 0.

Inductive effect : Type :=
| LogInfo (msg : string)
| LogError (msg : string)
| GetParameter (name : string)
| DescribeInstances (filters : list ec2_filter)
| StartInstances (ids : list string)
| StopInstances (ids : list string)
| Publish (TopicArn Subject Message : string).

(** ** Computations: state, exceptions and a log of effects *)

Definition M (E A : Type) : Type := world -> (E + A) * world * list effect.

Definition ret {E A} (a : A) : M E A := fun w => (inr a, w, []).

Definition raise {E A} (e : E) : M E A := fun w => (inl e, w, []).

Definition bind {E A B} (m : M E A) (k : A -> M E B) : M E B :=
  fun w =>
    match m w with
    | (inl e, w1, t1) => (inl e, w1, t1)
    | (inr a, w1, t1) =>
        match k a w1 with
        | (r, w2, t2) => (r, w2, (t1 ++ t2)%list)
        end
    end.

(** [try: m except Exception as e: h e]. *)
Definition try_except {E E' A} (m : M E A) (h : E -> M E' A) : M E' A :=
  fun w =>
    match m w with
    | (inr a, w1, t1) => (inr a, w1, t1)
    | (inl e, w1, t1) =>
        match h e w1 with
        | (r, w2, t2) => (r, w2, (t1 ++ t2)%list)
        end
    end.

(** An exception raised by [m] leaves the [try] block together with the
    value [l] that the local variables read by the handler hold while [m]
    runs. *)
Definition during {L E A} (l : L) (m : M E A) : M (L * E) A :=
  fun w =>
    match m w with
    | (inl e, w1, t1) => (inl (l, e), w1, t1)
    | (inr a, w1, t1) => (inr a, w1, t1)
    end.

Definition emit {E} (ev : effect) : M E unit := fun w => (inr tt, w, [ev]).

Notation "x <- m ;; k" := (bind m (fun x => k))
  (at level 61, m at next level, right associativity).
Notation "m ;; k" := (bind m (fun _ => k))
  (at level 61, right associativity).

Fixpoint for_each {E A} (xs : list A) (body : A -> M E unit) : M E unit :=
  match xs with
  | [] => ret tt
  | x :: rest => body x ;; for_each rest body
  end.

Definition outcome {E A} (r : (E + A) * world * list effect) : E + A :=
  fst (fst r).

Definition final {E A} (r : (E + A) * world * list effect) : world :=
  snd (fst r).

Definition effects {E A} (r : (E + A) * world * list effect) : list effect :=
  snd r.

(** ** Strings *)

Definition nl : string := String (ascii_of_nat 10) EmptyString.

(** [infixb s m]: the text [s] occurs in [m]. *)
Fixpoint infixb (s m : string) : bool :=
  prefix s m ||
  match m with
  | EmptyString => false
  | String _ m' => infixb s m'
  end.

(** Python's [x if x else d] and [if x:] on a value that is [None] or a
    string. *)
Definition truthy (x : option string) : bool :=
  match x with
  | None => false
  | Some EmptyString => false
  | Some _ => true
  end.

Definition or_else (x : option string) (d : string) : string :=
  match x with
  | Some s => if truthy x then s else d
  | None => d
  end.

(** [d.get(k, default)]. *)
Definition get_default (x : option string) (d : string) : string :=
  match x with
  | Some s => s
  | None => d
  end.

(** ** The script *)

Definition region : string := "us-east-2".

Definition LAMBDA_NAME : string := "ec2-scheduler-lambda".

(** The three variables the tag loop assigns. *)
Record tag_vars := mk_tag_vars {
  instance_name : string;
  environment : string;
  owner : string
}.

Definition default_tag_vars : tag_vars := mk_tag_vars "N/A" "N/A" "N/A".

(** The body of [for tag in instance['Tags']]. *)
Definition read_tag (v : tag_vars) (t : tag) : tag_vars :=
  if Key t =? "Name" then
    mk_tag_vars (Value t) (environment v) (owner v)
  else if Key t =? "Environment" then
    mk_tag_vars (instance_name v) (Value t) (owner v)
  else if Key t =? "Owner" then
    mk_tag_vars (instance_name v) (environment v) (Value t)
  else v.

Definition read_tags (i : instance) : tag_vars :=
  match Tags i with
  | Some tags => fold_left read_tag tags default_tag_vars
  | None => default_tag_vars
  end.

Definition workday_start : time := mk_time 3 30 0 0.

Definition workday_stop : time := mk_time 8 0 0 0.

(** [workday_start <= current_utc_time < workday_stop]. *)
Definition in_workday (current_utc_time : time) : bool :=
  time_le workday_start current_utc_time && time_lt current_utc_time workday_stop.

Definition checking_line (i : instance) : string :=
  "Checking instance " ++ InstanceId i
  ++ " (" ++ instance_name (read_tags i)
  ++ ", " ++ get_default (PrivateIpAddress i) "N/A"
  ++ ") - Current state: " ++ Name (State i).

(** The report of an action that went through. *)
Definition success_message
    (action instance_id instance_name instance_region instance_type
     previous_state current_state environment owner
     execution_time duration : string) : string :=
  "Action        : " ++ action ++ nl ++
  "Instance ID   : " ++ instance_id ++ nl ++
  "Instance Name : " ++ instance_name ++ nl ++
  "Region        : " ++ instance_region ++ nl ++
  "Instance Type : " ++ instance_type ++ nl ++
  "Previous State: " ++ previous_state ++ nl ++
  "Current State : " ++ current_state ++ nl ++
  "Environment   : " ++ environment ++ nl ++
  "Owner         : " ++ owner ++ nl ++
  "Triggered By  : EventBridge Rule - ec2-start-stop-instances" ++ nl ++
  "Lambda Name   : " ++ LAMBDA_NAME ++ nl ++
  "Execution Time: " ++ execution_time ++ nl ++
  "Duration      : " ++ duration ++ " seconds" ++ nl ++
  "Result        : SUCCESS".

(** The report composed by the [except] branch. *)
Definition failure_message
    (action : option string)
    (instance_id instance_name instance_region instance_type
     previous_state environment owner
     execution_time duration error : string) : string :=
  "Action        : " ++ or_else action "N/A" ++ nl ++
  "Instance ID   : " ++ instance_id ++ nl ++
  "Instance Name : " ++ instance_name ++ nl ++
  "Region        : " ++ instance_region ++ nl ++
  "Instance Type : " ++ instance_type ++ nl ++
  "Previous State: " ++ previous_state ++ nl ++
  "Current State : ERROR" ++ nl ++
  "Environment   : " ++ environment ++ nl ++
  "Owner         : " ++ owner ++ nl ++
  "Triggered By  : EventBridge Rule - ec2-start-stop-instances" ++ nl ++
  "Lambda Name   : " ++ LAMBDA_NAME ++ nl ++
  "Execution Time: " ++ execution_time ++ nl ++
  "Duration      : " ++ duration ++ " seconds" ++ nl ++
  "Result        : FAILURE" ++ nl ++
  "Error         : " ++ error.

Definition handler_ok : handler_result :=
  mk_result 200 "EC2 start/stop check completed successfully.".

Section Program.

Variable P : platform.

(** *** Calls into the platform *)

Definition utc_now {E} : M E datetime :=
  fun w =>
    (inr (utcnow P (clock_reads w)),
     mk_world (S (clock_reads w)) (state_changes w) (publishes w),
     []).

Definition raising (o : option exn) : exn + unit :=
  match o with
  | Some e => inl e
  | None => inr tt
  end.

Definition ssm_get_parameter (name : string) : M exn string :=
  fun w => (get_parameter P name, w, [GetParameter name]).

Definition ec2_describe_instances (filters : list ec2_filter)
  : M exn describe_response :=
  fun w => (describe_instances P filters, w, [DescribeInstances filters]).

Definition ec2_start_instances (ids : list string) : M exn unit :=
  fun w =>
    (raising (start_instances P (state_changes w) ids),
     mk_world (clock_reads w) (S (state_changes w)) (publishes w),
     [StartInstances ids]).

Definition ec2_stop_instances (ids : list string) : M exn unit :=
  fun w =>
    (raising (stop_instances P (state_changes w) ids),
     mk_world (clock_reads w) (S (state_changes w)) (publishes w),
     [StopInstances ids]).

Definition sns_publish (topic subject message : string) : M exn unit :=
  fun w =>
    (raising (publish P (publishes w) topic subject message),
     mk_world (clock_reads w) (state_changes w) (S (publishes w)),
     [Publish topic subject message]).

Definition log_info {E} (msg : string) : M E unit := emit (LogInfo msg).

Definition log_error {E} (msg : string) : M E unit := emit (LogError msg).

(** *** Module level *)

Definition get_sns_topic_arn : M exn string :=
  try_except
    (let parameter_name :=
       get_default (environ P "SNS_TOPIC_PARAM_NAME") "ec2-notification-sns" in
     ssm_get_parameter parameter_name)
    (fun e =>
       log_error ("Failed to get SNS topic ARN from SSM: " ++ e) ;;
       raise e).

(** [boto3.client('sns', ...)] builds a client object and calls nothing; it
    is not an effect here.  The [try] block holds the publish call and the
    line logged after it. *)
Definition send_sns_notification (SNS_TOPIC_ARN subject message : string)
  : M exn unit :=
  try_except
    (sns_publish SNS_TOPIC_ARN subject message ;;
     log_info ("SNS Notification sent: " ++ subject))
    (fun e => log_error ("Failed to send SNS notification: " ++ e)).

(** *** The handler *)

(** The [if]/[else] that opens the [try] block: it returns the values of
    [action] and [current_state] when no call raised. *)
Definition change_state (current_utc_time : time)
    (instance_id instance_state : string) : M exn (option string * string) :=
  if in_workday current_utc_time then
    if instance_state =? "stopped" then
      ec2_start_instances [instance_id] ;;
      ret (Some "STARTED", "running")
    else
      ret (None, instance_state)
  else
    if instance_state =? "running" then
      ec2_stop_instances [instance_id] ;;
      ret (Some "STOPPED", "stopped")
    else
      ret (None, instance_state).

(** The body of [for instance in reservation['Instances']]. *)
Definition process_instance (SNS_TOPIC_ARN : string) (start_time : datetime)
    (i : instance) : M exn unit :=
  let instance_id := InstanceId i in
  let instance_state := Name (State i) in
  let instance_type := get_default (InstanceType i) "N/A" in
  let instance_region := region in
  let tv := read_tags i in
  log_info (checking_line i) ;;
  now <- utc_now ;;
  let current_utc_time := dt_time now in
  let previous_state := instance_state in
  try_except
    (r <- during None
            (change_state current_utc_time instance_id instance_state) ;;
     let action := fst r in
     let current_state := snd r in
     during action
       (end_time <- utc_now ;;
        let duration := seconds_2f P start_time end_time in
        if truthy action then
          send_sns_notification SNS_TOPIC_ARN
            ("EC2 Instance " ++ get_default action "")
            (success_message (get_default action "")
               instance_id (instance_name tv) instance_region instance_type
               previous_state current_state (environment tv) (owner tv)
               (isoformat P end_time) duration)
        else ret tt))
    (fun raised =>
       let action := fst raised in
       let e := snd raised in
       log_error ("Error processing instance " ++ instance_id ++ ": " ++ e) ;;
       t1 <- utc_now ;;
       t2 <- utc_now ;;
       send_sns_notification SNS_TOPIC_ARN
         ("EC2 Instance " ++ or_else action "FAILED")
         (failure_message action
            instance_id (instance_name tv) instance_region instance_type
            previous_state (environment tv) (owner tv)
            (isoformat P t1) (seconds_2f P start_time t2) e)).

Definition lambda_handler (SNS_TOPIC_ARN : string) {Ev Ctx : Type}
    (event : Ev) (context : Ctx) : M exn handler_result :=
  start_time <- utc_now ;;
  let workday_filter := [mk_filter "tag:Reboot" ["WORKDAY"]] in
  log_info "Fetching instances with tag Reboot=WORKDAY" ;;
  response <- ec2_describe_instances workday_filter ;;
  for_each (Reservations response) (fun reservation =>
    for_each (Instances reservation) (fun instance =>
      process_instance SNS_TOPIC_ARN start_time instance)) ;;
  log_info "EC2 start/stop check and SNS notification completed successfully." ;;
  ret handler_ok.

(** A cold start: the module is imported, which binds [SNS_TOPIC_ARN], and
    the handler is then invoked. *)
Definition cold_start {Ev Ctx : Type} (event : Ev) (context : Ctx)
  : M exn handler_result :=
  SNS_TOPIC_ARN <- get_sns_topic_arn ;;
  lambda_handler SNS_TOPIC_ARN event context.

End Program.

(** ** Observations on a run *)

Definition is_state_change (ev : effect) : bool :=
  match ev with
  | StartInstances _ | StopInstances _ => true
  | _ => false
  end.

Definition is_publish (ev : effect) : bool :=
  match ev with
  | Publish _ _ _ => true
  | _ => false
  end.

Definition is_log (ev : effect) : bool :=
  match ev with
  | LogInfo _ | LogError _ => true
  | _ => false
  end.

(** The start and stop calls of a run, in order. *)
Definition state_change_calls (evs : list effect) : list effect :=
  filter is_state_change evs.

(** The publish calls of a run, in order. *)
Definition publish_calls (evs : list effect) : list effect :=
  filter is_publish evs.

(** Everything a run asks of the provider: its effects without the log. *)
Definition provider_calls (evs : list effect) : list effect :=
  filter (fun ev => negb (is_log ev)) evs.

(** All instances of a response, in the order the two loops visit them. *)
Definition all_instances (r : describe_response) : list instance :=
  flat_map Instances (Reservations r).

(** ** Sample data *)

Definition at_time (h m s : nat) : datetime := mk_datetime 8 (mk_time h m s 0).

(** A platform whose clock is stopped at [now], whose state changes and
    publishes all have the given outcome. *)
Definition fixed_platform (now : datetime)
    (parameter : exn + string) (listing : exn + describe_response)
    (start_outcome stop_outcome publish_outcome : option exn) : platform :=
  {| environ := fun _ => None;
     get_parameter := fun _ => parameter;
     describe_instances := fun _ => listing;
     utcnow := fun _ => now;
     start_instances := fun _ _ => start_outcome;
     stop_instances := fun _ _ => stop_outcome;
     publish := fun _ _ _ _ => publish_outcome;
     isoformat := fun _ => "2022-01-08T04:00:00.000000+00:00";
     seconds_2f := fun _ _ => "0.25" |}.

Definition sample_arn : string := "arn:aws:sns:us-east-2:123456789012:ec2-notify".

Definition sample_tags : list tag :=
  [mk_tag "Reboot" "WORKDAY"; mk_tag "Name" "build-box";
   mk_tag "Environment" "dev"; mk_tag "Owner" "sneha"].

Definition sample_instance (id state : string) : instance :=
  mk_instance id (mk_state state) (Some "10.0.0.7") (Some "t3.micro")
    (Some sample_tags).

Definition healthy (now : datetime) (listing : list instance) : platform :=
  fixed_platform now (inr sample_arn)
    (inr (mk_describe_response [mk_reservation listing])) None None None.

Definition morning : datetime := at_time 4 0 0.

Definition evening : datetime := at_time 19 45 0.

Definition stopped_box : instance := sample_instance "i-0a1b2c3d" "stopped".

Definition running_box : instance := sample_instance "i-0e4f5a6b" "running".

Definition pending_box : instance := sample_instance "i-0c7d8e9f" "pending".

Definition spare_box : instance := sample_instance "i-0b2c3d4e" "stopped".

(** A platform on which the first state change of a run is refused and the
    later ones go through. *)
Definition first_call_refused (now : datetime) (listing : list instance)
  : platform :=
  {| environ := fun _ => None;
     get_parameter := fun _ => inr sample_arn;
     describe_instances :=
       fun _ => inr (mk_describe_response [mk_reservation listing]);
     utcnow := fun _ => now;
     start_instances :=
       fun n _ => if Nat.eqb n 0 then Some "UnauthorizedOperation" else None;
     stop_instances :=
       fun n _ => if Nat.eqb n 0 then Some "UnauthorizedOperation" else None;
     publish := fun _ _ _ _ => None;
     isoformat := fun _ => "2022-01-08T04:00:00.000000+00:00";
     seconds_2f := fun _ _ => "0.25" |}.

(** A platform on which every state change is refused and every publish
    fails. *)
Definition all_refused (now : datetime) (listing : list instance) : platform :=
  fixed_platform now (inr sample_arn)
    (inr (mk_describe_response [mk_reservation listing]))
    (Some "UnauthorizedOperation") (Some "UnauthorizedOperation")
    (Some "EndpointConnectionError").

(** An instance whose description carries no private address. *)
Definition no_address_box : instance :=
  mk_instance "i-0a1b2c3d" (mk_state "stopped") None (Some "t3.micro")
    (Some sample_tags).

(** An instance described by its identifier and state only. *)
Definition bare_box : instance :=
  mk_instance "i-0d5e6f7a" (mk_state "stopped") None None None.

(** ** Derived notions used in the statements *)

(** The line [send_sns_notification] logs after its publish call, the
    [n]-th of the run. *)
Definition sent_log (P : platform) (n : nat) (topic subject message : string)
  : effect :=
  match publish P n topic subject message with
  | None => LogInfo ("SNS Notification sent: " ++ subject)
  | Some e => LogError ("Failed to send SNS notification: " ++ e)
  end.

(** The same platform with other outcomes for its publish calls. *)
Definition with_publish (P : platform)
    (f : nat -> string -> string -> string -> option exn) : platform :=
  {| environ := environ P;
     get_parameter := get_parameter P;
     describe_instances := describe_instances P;
     utcnow := utcnow P;
     start_instances := start_instances P;
     stop_instances := stop_instances P;
     publish := f;
     isoformat := isoformat P;
     seconds_2f := seconds_2f P |}.

(** Two runs that end alike and asked the same of the provider; their logs
    may differ. *)
Definition agree {E A} (r1 r2 : (E + A) * world * list effect) : Prop :=
  outcome r1 = outcome r2 /\
  final r1 = final r2 /\
  provider_calls (effects r1) = provider_calls (effects r2).

(** The instance carries no tag with this key (in particular when it has no
    [Tags] field at all). *)
Definition untagged (key : string) (i : instance) : Prop :=
  forall tags, Tags i = Some tags -> ~ In key (map Key tags).

(** The report [message] has the line [label value]. *)
Definition has_line (label value message : string) : Prop :=
  infixb (label ++ value ++ nl) message = true.

Definition is_listing (ev : effect) : bool :=
  match ev with
  | DescribeInstances _ => true
  | _ => false
  end.

(** The [describe_instances] calls of a run, in order. *)
Definition listing_calls (evs : list effect) : list effect :=
  List.filter is_listing evs.

(** The call the script makes for an instance when it acts on it inside the
    window, and outside of it. *)
Definition start_call (i : instance) : effect := StartInstances [InstanceId i].

Definition stop_call (i : instance) : effect := StopInstances [InstanceId i].

(** [chunks] are the effects of one pass [run_of x] per element [x] of
    [xs], in order, each from some world. *)
Definition passes {A : Type} (run_of : A -> world -> list effect)
    (xs : list A) (chunks : list (list effect)) : Prop :=
  Forall2 (fun x chunk => exists w', chunk = run_of x w') xs chunks.

(** The filter the handler passes to [describe_instances]. *)
Definition workday_filter : list ec2_filter := [mk_filter "tag:Reboot" ["WORKDAY"]].

(** The parameter name [get_sns_topic_arn] looks up. *)
Definition parameter_name (P : platform) : string :=
  get_default (environ P "SNS_TOPIC_PARAM_NAME") "ec2-notification-sns".

(** * Properties *)

(** ** Texts *)

Lemma append_assoc (a b c : string) : (a ++ b) ++ c = a ++ b ++ c.
Proof.
  induction a as [|x a IH]; simpl; [reflexivity | now rewrite IH].
Qed.

Lemma prefix_append (s m : string) : prefix s (s ++ m) = true.
Proof.
  induction s as [|x s IH]; simpl.
  - now destruct m.
  - destruct (ascii_dec x x) as [_|ne]; [exact IH | now elim ne].
Qed.

Lemma prefix_inv (s m : string) :
  prefix s m = true -> exists post, m = s ++ post.
Proof.
  revert m; induction s as [|x s IH]; intros m H.
  - now exists m.
  - destruct m as [|y m]; simpl in H; [discriminate|].
    destruct (ascii_dec x y) as [->|_]; [|discriminate].
    destruct (IH m H) as [post ->]. now exists post.
Qed.

Lemma infixb_prefix (s m : string) : prefix s m = true -> infixb s m = true.
Proof.
  intros H. destruct m; simpl; simpl in H; now rewrite H.
Qed.

Lemma infixb_here (s m : string) : infixb s (s ++ m) = true.
Proof. apply infixb_prefix, prefix_append. Qed.

Lemma infixb_refl (s : string) : infixb s s = true.
Proof.
  apply infixb_prefix.
  induction s as [|x s IH]; simpl; [reflexivity|].
  destruct (ascii_dec x x) as [_|ne]; [exact IH | now elim ne].
Qed.

Lemma infixb_skip (s p m : string) : infixb s m = true -> infixb s (p ++ m) = true.
Proof.
  intros H. induction p as [|x p IH]; simpl; [exact H|].
  rewrite IH. apply orb_true_r.
Qed.

Lemma infixb_here3 (a b c m : string) :
  infixb (a ++ b ++ c) (a ++ b ++ c ++ m) = true.
Proof.
  rewrite <- (append_assoc b c m), <- (append_assoc a (b ++ c) m).
  apply infixb_here.
Qed.

(** [infixb] decides the occurrence of one text in another. *)
Lemma infixb_spec (s m : string) :
  infixb s m = true <-> exists pre post, m = pre ++ s ++ post.
Proof.
  split.
  - induction m as [|x m IH]; intros H; cbn [infixb] in H.
    + rewrite orb_false_r in H. destruct (prefix_inv _ _ H) as [post E].
      now exists EmptyString, post.
    + apply orb_true_iff in H. destruct H as [H|H].
      * destruct (prefix_inv _ _ H) as [post E]. now exists EmptyString, post.
      * destruct (IH H) as (pre & post & ->). now exists (String x pre), post.
  - intros (pre & post & ->). apply infixb_skip, infixb_here.
Qed.

(** A text that holds a labelled line holds the value on that line. *)
Lemma infixb_value (label v tail m : string) :
  infixb (label ++ v ++ tail) m = true -> infixb v m = true.
Proof.
  intros H. apply infixb_spec in H. destruct H as (pre & post & ->).
  apply infixb_spec. exists (pre ++ label), (tail ++ post).
  now rewrite !append_assoc.
Qed.

(** ** The window *)

(** X10.  On a well-formed time of day the tuple comparison of the script
    is the interval 03:30 <= t < 08:00, counted in minutes since midnight:
    03:30:00 is inside, 08:00:00 is outside, and the seconds and the
    microseconds of the time play no part. *)
Lemma in_workday_minutes (t : time) :
  minute t < 60 ->
  in_workday t = true <-> 210 <= hour t * 60 + minute t < 480.
Proof.
  intros Hm. unfold in_workday, time_le, time_lt, time_cmp.
  cbn [hour minute second microsecond workday_start workday_stop].
  destruct (Nat.compare_spec 3 (hour t)); destruct (Nat.compare_spec (hour t) 8);
    try destruct (Nat.compare_spec 30 (minute t));
    try destruct (Nat.compare_spec (minute t) 0);
    try destruct (Nat.compare_spec 0 (second t));
    try destruct (Nat.compare_spec (second t) 0);
    try destruct (Nat.compare_spec 0 (microsecond t));
    try destruct (Nat.compare_spec (microsecond t) 0);
    cbn; split; intros; try discriminate; try reflexivity; try lia.
Qed.

(** ** Run equations *)

Ltac run :=
  cbv [process_instance change_state send_sns_notification
       get_sns_topic_arn ssm_get_parameter ec2_describe_instances
       try_except during bind ret raise emit log_info log_error utc_now
       ec2_start_instances ec2_stop_instances sns_publish raising sent_log
       fst snd app truthy get_default or_else
       clock_reads state_changes publishes].

Ltac decide_state Hw Hs :=
  run; rewrite Hw, Hs; cbn [String.eqb Ascii.eqb Bool.eqb].

Lemma send_sns_notification_run (P : platform) (arn subject message : string)
    (c s p : nat) :
  send_sns_notification P arn subject message (mk_world c s p) =
  (inr tt, mk_world c s (S p),
   [Publish arn subject message; sent_log P p arn subject message]).
Proof.
  run. now destruct (publish P p arn subject message).
Qed.

Section Instance_runs.

Variables (P : platform) (arn : string) (start_time : datetime) (i : instance).
Variables (c s p : nat).

(** Inside the window, a stopped instance, the start call returns. *)
Lemma process_start_ok :
  in_workday (dt_time (utcnow P c)) = true ->
  Name (State i) = "stopped" ->
  start_instances P s [InstanceId i] = None ->
  let message :=
    success_message "STARTED" (InstanceId i) (instance_name (read_tags i))
      region (get_default (InstanceType i) "N/A") "stopped" "running"
      (environment (read_tags i)) (owner (read_tags i))
      (isoformat P (utcnow P (S c)))
      (seconds_2f P start_time (utcnow P (S c))) in
  process_instance P arn start_time i (mk_world c s p) =
  (inr tt, mk_world (S (S c)) (S s) (S p),
   [LogInfo (checking_line i); StartInstances [InstanceId i];
    Publish arn "EC2 Instance STARTED" message;
    sent_log P p arn "EC2 Instance STARTED" message]).
Proof.
  intros Hw Hs Hc. decide_state Hw Hs. rewrite Hc. cbv iota beta.
  now destruct (publish P p _ _ _).
Qed.

(** Inside the window, a stopped instance, the start call raises. *)
Lemma process_start_raises (e : exn) :
  in_workday (dt_time (utcnow P c)) = true ->
  Name (State i) = "stopped" ->
  start_instances P s [InstanceId i] = Some e ->
  let message :=
    failure_message None (InstanceId i) (instance_name (read_tags i))
      region (get_default (InstanceType i) "N/A") "stopped"
      (environment (read_tags i)) (owner (read_tags i))
      (isoformat P (utcnow P (S c)))
      (seconds_2f P start_time (utcnow P (S (S c)))) e in
  process_instance P arn start_time i (mk_world c s p) =
  (inr tt, mk_world (S (S (S c))) (S s) (S p),
   [LogInfo (checking_line i); StartInstances [InstanceId i];
    LogError ("Error processing instance " ++ InstanceId i ++ ": " ++ e);
    Publish arn "EC2 Instance FAILED" message;
    sent_log P p arn "EC2 Instance FAILED" message]).
Proof.
  intros Hw Hs Hc. decide_state Hw Hs. rewrite Hc. cbv iota beta.
  now destruct (publish P p _ _ _).
Qed.

(** Inside the window, any other state. *)
Lemma process_idle_inside :
  in_workday (dt_time (utcnow P c)) = true ->
  Name (State i) <> "stopped" ->
  process_instance P arn start_time i (mk_world c s p) =
  (inr tt, mk_world (S (S c)) s p, [LogInfo (checking_line i)]).
Proof.
  intros Hw Hs. apply String.eqb_neq in Hs. now decide_state Hw Hs.
Qed.

(** Outside the window, a running instance, the stop call returns. *)
Lemma process_stop_ok :
  in_workday (dt_time (utcnow P c)) = false ->
  Name (State i) = "running" ->
  stop_instances P s [InstanceId i] = None ->
  let message :=
    success_message "STOPPED" (InstanceId i) (instance_name (read_tags i))
      region (get_default (InstanceType i) "N/A") "running" "stopped"
      (environment (read_tags i)) (owner (read_tags i))
      (isoformat P (utcnow P (S c)))
      (seconds_2f P start_time (utcnow P (S c))) in
  process_instance P arn start_time i (mk_world c s p) =
  (inr tt, mk_world (S (S c)) (S s) (S p),
   [LogInfo (checking_line i); StopInstances [InstanceId i];
    Publish arn "EC2 Instance STOPPED" message;
    sent_log P p arn "EC2 Instance STOPPED" message]).
Proof.
  intros Hw Hs Hc. decide_state Hw Hs. rewrite Hc. cbv iota beta.
  now destruct (publish P p _ _ _).
Qed.

(** Outside the window, a running instance, the stop call raises. *)
Lemma process_stop_raises (e : exn) :
  in_workday (dt_time (utcnow P c)) = false ->
  Name (State i) = "running" ->
  stop_instances P s [InstanceId i] = Some e ->
  let message :=
    failure_message None (InstanceId i) (instance_name (read_tags i))
      region (get_default (InstanceType i) "N/A") "running"
      (environment (read_tags i)) (owner (read_tags i))
      (isoformat P (utcnow P (S c)))
      (seconds_2f P start_time (utcnow P (S (S c)))) e in
  process_instance P arn start_time i (mk_world c s p) =
  (inr tt, mk_world (S (S (S c))) (S s) (S p),
   [LogInfo (checking_line i); StopInstances [InstanceId i];
    LogError ("Error processing instance " ++ InstanceId i ++ ": " ++ e);
    Publish arn "EC2 Instance FAILED" message;
    sent_log P p arn "EC2 Instance FAILED" message]).
Proof.
  intros Hw Hs Hc. decide_state Hw Hs. rewrite Hc. cbv iota beta.
  now destruct (publish P p _ _ _).
Qed.

(** Outside the window, any other state. *)
Lemma process_idle_outside :
  in_workday (dt_time (utcnow P c)) = false ->
  Name (State i) <> "running" ->
  process_instance P arn start_time i (mk_world c s p) =
  (inr tt, mk_world (S (S c)) s p, [LogInfo (checking_line i)]).
Proof.
  intros Hw Hs. apply String.eqb_neq in Hs. now decide_state Hw Hs.
Qed.

End Instance_runs.

Ltac use_run E :=
  let R := fresh "R" in
  pose proof E as R; cbv zeta in R; rewrite R; clear R.

(** Whatever the provider answers, the body of the loop returns. *)
Lemma process_instance_returns (P : platform) (arn : string)
    (start_time : datetime) (i : instance) (w : world) :
  outcome (process_instance P arn start_time i w) = inr tt.
Proof.
  destruct w as [c s p].
  destruct (in_workday (dt_time (utcnow P c))) eqn:Hw.
  - destruct (string_dec (Name (State i)) "stopped") as [Hs|Hs].
    + destruct (start_instances P s [InstanceId i]) as [e|] eqn:Hc.
      * now use_run (process_start_raises P arn start_time i c s p e Hw Hs Hc).
      * now use_run (process_start_ok P arn start_time i c s p Hw Hs Hc).
    + now use_run (process_idle_inside P arn start_time i c s p Hw Hs).
  - destruct (string_dec (Name (State i)) "running") as [Hs|Hs].
    + destruct (stop_instances P s [InstanceId i]) as [e|] eqn:Hc.
      * now use_run (process_stop_raises P arn start_time i c s p e Hw Hs Hc).
      * now use_run (process_stop_ok P arn start_time i c s p Hw Hs Hc).
    + now use_run (process_idle_outside P arn start_time i c s p Hw Hs).
Qed.

(** The start and stop calls of one pass over an instance, as the script
    decides them from the window and the state it read. *)
Lemma process_instance_calls (P : platform) (arn : string)
    (start_time : datetime) (i : instance) (w : world) :
  state_change_calls (effects (process_instance P arn start_time i w)) =
  if in_workday (dt_time (utcnow P (clock_reads w))) then
    if Name (State i) =? "stopped" then [StartInstances [InstanceId i]] else []
  else
    if Name (State i) =? "running" then [StopInstances [InstanceId i]] else [].
Proof.
  destruct w as [c s p]. cbn [clock_reads].
  destruct (in_workday (dt_time (utcnow P c))) eqn:Hw.
  - destruct (String.eqb_spec (Name (State i)) "stopped") as [Hs|Hs].
    + destruct (start_instances P s [InstanceId i]) as [e|] eqn:Hc.
      * use_run (process_start_raises P arn start_time i c s p e Hw Hs Hc).
        unfold sent_log. now destruct (publish P p _ _ _).
      * use_run (process_start_ok P arn start_time i c s p Hw Hs Hc).
        unfold sent_log. now destruct (publish P p _ _ _).
    + now use_run (process_idle_inside P arn start_time i c s p Hw Hs).
  - destruct (String.eqb_spec (Name (State i)) "running") as [Hs|Hs].
    + destruct (stop_instances P s [InstanceId i]) as [e|] eqn:Hc.
      * use_run (process_stop_raises P arn start_time i c s p e Hw Hs Hc).
        unfold sent_log. now destruct (publish P p _ _ _).
      * use_run (process_stop_ok P arn start_time i c s p Hw Hs Hc).
        unfold sent_log. now destruct (publish P p _ _ _).
    + now use_run (process_idle_outside P arn start_time i c s p Hw Hs).
Qed.

(** ** The policy *)

Example window_opens : in_workday (mk_time 3 30 0 0) = true.
Proof. reflexivity. Qed.

Example window_closed_before : in_workday (mk_time 3 29 59 0) = false.
Proof. reflexivity. Qed.

Example window_closes : in_workday (mk_time 8 0 0 0) = false.
Proof. reflexivity. Qed.

Example window_open_until : in_workday (mk_time 7 59 59 0) = true.
Proof. reflexivity. Qed.

(** C1.  For every instance processed: when the current UTC time of day is
    inside the window 03:30:00 <= t < 08:00:00, a stopped instance gets
    exactly one state-change call, [start_instances] on its identifier, and a
    running instance gets nothing but its log line; when the time is outside
    the window, a running instance gets exactly one state-change call,
    [stop_instances] on its identifier, and a stopped instance gets nothing
    but its log line. *)
Theorem workday_policy (P : platform) (arn : string) (start_time : datetime)
    (i : instance) (w : world) :
  (in_workday (dt_time (utcnow P (clock_reads w))) = true ->
   Name (State i) = "stopped" ->
   state_change_calls (effects (process_instance P arn start_time i w)) =
   [StartInstances [InstanceId i]]) /\
  (in_workday (dt_time (utcnow P (clock_reads w))) = true ->
   Name (State i) = "running" ->
   effects (process_instance P arn start_time i w) =
   [LogInfo (checking_line i)]) /\
  (in_workday (dt_time (utcnow P (clock_reads w))) = false ->
   Name (State i) = "running" ->
   state_change_calls (effects (process_instance P arn start_time i w)) =
   [StopInstances [InstanceId i]]) /\
  (in_workday (dt_time (utcnow P (clock_reads w))) = false ->
   Name (State i) = "stopped" ->
   effects (process_instance P arn start_time i w) =
   [LogInfo (checking_line i)]).
Proof.
  repeat split; intros Hw Hs.
  - now rewrite process_instance_calls, Hw, Hs.
  - destruct w as [c s p]. cbn [clock_reads] in Hw.
    use_run (process_idle_inside P arn start_time i c s p Hw); [reflexivity|].
    now rewrite Hs.
  - now rewrite process_instance_calls, Hw, Hs.
  - destruct w as [c s p]. cbn [clock_reads] in Hw.
    use_run (process_idle_outside P arn start_time i c s p Hw); [reflexivity|].
    now rewrite Hs.
Qed.

Lemma workday_policy_witness :
  state_change_calls
    (effects (process_instance (healthy morning [stopped_box]) sample_arn
                morning stopped_box boot)) =
  [StartInstances ["i-0a1b2c3d"]] /\
  effects (process_instance (healthy morning [running_box]) sample_arn
             morning running_box boot) =
  [LogInfo (checking_line running_box)] /\
  state_change_calls
    (effects (process_instance (healthy evening [running_box]) sample_arn
                evening running_box boot)) =
  [StopInstances ["i-0e4f5a6b"]] /\
  effects (process_instance (healthy evening [stopped_box]) sample_arn
             evening stopped_box boot) =
  [LogInfo (checking_line stopped_box)].
Proof.
  split; [|split; [|split]].
  - apply (proj1 (workday_policy (healthy morning [stopped_box]) sample_arn
                    morning stopped_box boot)); reflexivity.
  - apply (proj1 (proj2 (workday_policy (healthy morning [running_box])
                           sample_arn morning running_box boot))); reflexivity.
  - apply (proj1 (proj2 (proj2 (workday_policy (healthy evening [running_box])
                                  sample_arn evening running_box boot))));
      reflexivity.
  - apply (proj2 (proj2 (proj2 (workday_policy (healthy evening [stopped_box])
                                  sample_arn evening stopped_box boot))));
      reflexivity.
Defined.

(** C2, as stated, fails: at 04:00, inside the window, an instance in state
    [pending] is not running and is not started; at 19:45, outside the
    window, the same instance is not stopped and is not stopped by the
    script either. *)
Lemma pending_instance_left_alone :
  in_workday (dt_time (utcnow (healthy morning [pending_box]) (clock_reads boot))) = true /\
  Name (State pending_box) <> "running" /\
  state_change_calls
    (effects (process_instance (healthy morning [pending_box]) sample_arn
                morning pending_box boot)) = [] /\
  in_workday (dt_time (utcnow (healthy evening [pending_box]) (clock_reads boot))) = false /\
  Name (State pending_box) <> "stopped" /\
  state_change_calls
    (effects (process_instance (healthy evening [pending_box]) sample_arn
                evening pending_box boot)) = [].
Proof.
  split; [reflexivity|]. split; [discriminate|]. split; [reflexivity|].
  split; [reflexivity|]. split; [discriminate | reflexivity].
Qed.

(** C2, amended.  The action depends on the named power state: inside the
    window an instance is started when its state is [stopped] and gets no
    state-change call in any other state; outside the window an instance is
    stopped when its state is [running] and gets no state-change call in any
    other state. *)
Theorem state_change_by_state_name (P : platform) (arn : string)
    (start_time : datetime) (i : instance) (w : world) :
  (in_workday (dt_time (utcnow P (clock_reads w))) = true ->
   (Name (State i) = "stopped" ->
    state_change_calls (effects (process_instance P arn start_time i w)) =
    [StartInstances [InstanceId i]]) /\
   (Name (State i) <> "stopped" ->
    state_change_calls (effects (process_instance P arn start_time i w)) = [])) /\
  (in_workday (dt_time (utcnow P (clock_reads w))) = false ->
   (Name (State i) = "running" ->
    state_change_calls (effects (process_instance P arn start_time i w)) =
    [StopInstances [InstanceId i]]) /\
   (Name (State i) <> "running" ->
    state_change_calls (effects (process_instance P arn start_time i w)) = [])).
Proof.
  split; intros Hw; split; intros Hs; rewrite process_instance_calls, Hw.
  - now rewrite Hs.
  - apply String.eqb_neq in Hs. now rewrite Hs.
  - now rewrite Hs.
  - apply String.eqb_neq in Hs. now rewrite Hs.
Qed.

Lemma state_change_by_state_name_witness :
  state_change_calls
    (effects (process_instance (healthy morning [pending_box]) sample_arn
                morning pending_box boot)) = [] /\
  state_change_calls
    (effects (process_instance (healthy evening [running_box]) sample_arn
                evening running_box boot)) = [StopInstances ["i-0e4f5a6b"]].
Proof.
  split.
  - apply (proj1 (state_change_by_state_name (healthy morning [pending_box])
                    sample_arn morning pending_box boot));
      [reflexivity | discriminate].
  - apply (proj2 (state_change_by_state_name (healthy evening [running_box])
                    sample_arn evening running_box boot)); reflexivity.
Defined.

(** ** Start-up *)

(** C6.  If the start-up lookup of the topic ARN in the parameter store
    fails with [e], then [e] is logged and raised again while the module is
    imported: the run ends with [e], and the lookup and its log line are
    the only effects, so no instance is listed, started or stopped and
    nothing is published. *)
Theorem startup_lookup_failure_is_fatal (P : platform) (Ev Ctx : Type)
    (event : Ev) (context : Ctx) (w : world) (e : exn) :
  get_parameter P (parameter_name P) = inl e ->
  cold_start P event context w =
  (inl e, w,
   [GetParameter (parameter_name P);
    LogError ("Failed to get SNS topic ARN from SSM: " ++ e)]).
Proof.
  intros H. unfold parameter_name in H.
  cbv [cold_start get_sns_topic_arn parameter_name try_except bind
       ssm_get_parameter log_error emit raise app].
  now rewrite H.
Qed.

Lemma startup_lookup_failure_is_fatal_witness :
  cold_start
    (fixed_platform morning (inl "ParameterNotFound")
       (inr (mk_describe_response [mk_reservation [stopped_box]]))
       None None None) tt tt boot =
  (inl "ParameterNotFound", boot,
   [GetParameter "ec2-notification-sns";
    LogError "Failed to get SNS topic ARN from SSM: ParameterNotFound"]).
Proof.
  apply (startup_lookup_failure_is_fatal
           (fixed_platform morning (inl "ParameterNotFound")
              (inr (mk_describe_response [mk_reservation [stopped_box]]))
              None None None) unit unit tt tt boot "ParameterNotFound").
  reflexivity.
Defined.

(** ** Loops *)

Lemma bind_assoc {E A B C} (m : M E A) (k : A -> M E B) (h : B -> M E C)
    (w : world) :
  bind (bind m k) h w = bind m (fun a => bind (k a) h) w.
Proof.
  unfold bind. destruct (m w) as [[[e|a] w1] t1]; [reflexivity|].
  destruct (k a w1) as [[[e|b] w2] t2]; [reflexivity|].
  destruct (h b w2) as [[r w3] t3]. now rewrite app_assoc.
Qed.

Lemma bind_ext {E A B} (m : M E A) (k1 k2 : A -> M E B) (w : world) :
  (forall a w', k1 a w' = k2 a w') -> bind m k1 w = bind m k2 w.
Proof.
  intros H. unfold bind. destruct (m w) as [[[e|a] w1] t1]; [reflexivity|].
  now rewrite H.
Qed.

Lemma bind_ret_l {E B} (k : unit -> M E B) (w : world) :
  bind (ret tt) k w = k tt w.
Proof.
  unfold bind, ret. now destruct (k tt w) as [[r w2] t2].
Qed.

Lemma for_each_app {E A} (body : A -> M E unit) (xs ys : list A) (w : world) :
  for_each (xs ++ ys) body w =
  bind (for_each xs body) (fun _ => for_each ys body) w.
Proof.
  revert w. induction xs as [|x xs IH]; intros w; cbn [for_each app].
  - now rewrite bind_ret_l.
  - rewrite bind_assoc. apply bind_ext. intros [] w'. apply IH.
Qed.

(** The two nested loops of the handler visit the instances of the response
    one after the other. *)
Lemma for_each_nested {E A B} (f : A -> list B) (body : B -> M E unit)
    (xs : list A) (w : world) :
  for_each xs (fun x => for_each (f x) body) w =
  for_each (flat_map f xs) body w.
Proof.
  revert w. induction xs as [|x xs IH]; intros w; cbn [for_each flat_map].
  - reflexivity.
  - rewrite for_each_app. apply bind_ext. intros [] w'. apply IH.
Qed.

(** A loop whose body always returns runs the body on every element, in
    order, and returns. *)
Lemma for_each_chunks {E A} (body : A -> M E unit) :
  (forall x w, outcome (body x w) = inr tt) ->
  forall xs w,
    outcome (for_each xs body w) = inr tt /\
    exists chunks,
      effects (for_each xs body w) = List.concat chunks /\
      Forall2 (fun x chunk => exists w', chunk = effects (body x w')) xs chunks.
Proof.
  intros Hbody. induction xs as [|x xs IH]; intros w; cbn [for_each].
  - split; [reflexivity|]. exists []. split; [reflexivity | constructor].
  - unfold bind. pose proof (Hbody x w) as Hx.
    destruct (body x w) as [[r w1] t1] eqn:Ex. cbn in Hx. subst r.
    destruct (IH w1) as (Hout & chunks & Heff & Hall).
    destruct (for_each xs body w1) as [[r w2] t2]. cbn in Hout, Heff. subst.
    split; [reflexivity|]. exists (t1 :: chunks). split; [reflexivity|].
    constructor; [|exact Hall]. exists w. now rewrite Ex.
Qed.

(** ** The handler *)

(** The run of the handler once the listing has returned [response]. *)
Lemma lambda_handler_run (P : platform) (arn : string) (Ev Ctx : Type)
    (event : Ev) (context : Ctx) (w : world) (response : describe_response) :
  describe_instances P workday_filter = inr response ->
  outcome (lambda_handler P arn event context w) = inr handler_ok /\
  exists chunks,
    effects (lambda_handler P arn event context w) =
    ([LogInfo "Fetching instances with tag Reboot=WORKDAY";
      DescribeInstances workday_filter]
     ++ List.concat chunks
     ++ [LogInfo "EC2 start/stop check and SNS notification completed successfully."])%list /\
    Forall2
      (fun i chunk =>
         exists w',
           chunk =
           effects (process_instance P arn (utcnow P (clock_reads w)) i w'))
      (all_instances response) chunks.
Proof.
  intros Hd. unfold lambda_handler, all_instances.
  cbv [bind utc_now log_info emit ec2_describe_instances ret].
  fold workday_filter. rewrite Hd. cbv iota beta.
  match goal with
  | |- context [for_each (Reservations response) ?b ?w1] =>
      change (for_each (Reservations response) b w1)
        with (for_each (Reservations response)
                (fun x => for_each (Instances x)
                   (process_instance P arn (utcnow P (clock_reads w)))) w1);
      rewrite (for_each_nested Instances
                 (process_instance P arn (utcnow P (clock_reads w)))
                 (Reservations response) w1);
      destruct (for_each_chunks
                  (process_instance P arn (utcnow P (clock_reads w)))
                  (process_instance_returns P arn (utcnow P (clock_reads w)))
                  (flat_map Instances (Reservations response)) w1)
        as (Hout & chunks & Heff & Hall);
      destruct (for_each (flat_map Instances (Reservations response))
                  (process_instance P arn (utcnow P (clock_reads w))) w1)
        as [[r w2] t2]
  end.
  cbn in Hout, Heff. subst. split; [reflexivity|].
  exists chunks. split; [reflexivity | exact Hall].
Qed.

(** The first start is refused; the second instance is started all the
    same. *)
Example second_instance_still_started :
  state_change_calls
    (effects (lambda_handler
                (first_call_refused morning [stopped_box; spare_box])
                sample_arn tt tt boot)) =
  [StartInstances ["i-0a1b2c3d"]; StartInstances ["i-0b2c3d4e"]] /\
  map (fun ev => match ev with Publish _ subject _ => subject | _ => "" end)
    (publish_calls
       (effects (lambda_handler
                   (first_call_refused morning [stopped_box; spare_box])
                   sample_arn tt tt boot))) =
  ["EC2 Instance FAILED"; "EC2 Instance STARTED"].
Proof. split; vm_compute; reflexivity. Qed.

(** C3.  Once the instances are listed, an error raised by the provider
    while one instance is processed is caught: the body of the loop returns
    for every platform, the effects of the run are the effects of the body
    on every instance of the listing, one after the other in the order of
    the listing, and the handler returns. *)
Theorem provider_errors_are_isolated (P : platform) (arn : string)
    (Ev Ctx : Type) (event : Ev) (context : Ctx) (w : world)
    (response : describe_response) :
  describe_instances P workday_filter = inr response ->
  (forall start_time i w',
      outcome (process_instance P arn start_time i w') = inr tt) /\
  outcome (lambda_handler P arn event context w) = inr handler_ok /\
  exists chunks,
    effects (lambda_handler P arn event context w) =
    ([LogInfo "Fetching instances with tag Reboot=WORKDAY";
      DescribeInstances workday_filter]
     ++ List.concat chunks
     ++ [LogInfo "EC2 start/stop check and SNS notification completed successfully."])%list /\
    Forall2
      (fun i chunk =>
         exists w',
           chunk =
           effects (process_instance P arn (utcnow P (clock_reads w)) i w'))
      (all_instances response) chunks.
Proof.
  intros Hd. split.
  - intros start_time i w'. apply process_instance_returns.
  - exact (lambda_handler_run P arn Ev Ctx event context w response Hd).
Qed.

Lemma provider_errors_are_isolated_witness :
  outcome (lambda_handler (first_call_refused morning [stopped_box; spare_box])
             sample_arn tt tt boot) = inr handler_ok.
Proof.
  apply (provider_errors_are_isolated
           (first_call_refused morning [stopped_box; spare_box])
           sample_arn unit unit tt tt boot
           (mk_describe_response [mk_reservation [stopped_box; spare_box]])).
  reflexivity.
Defined.

(** C9.  Whenever the listing of the instances returns, the handler returns
    status code 200 with the fixed body, whatever the state changes and the
    publishes of the run did: the result says nothing of the failures. *)
Theorem handler_result_is_unconditional (P : platform) (arn : string)
    (Ev Ctx : Type) (event : Ev) (context : Ctx) (w : world)
    (response : describe_response) :
  describe_instances P workday_filter = inr response ->
  outcome (lambda_handler P arn event context w) =
  inr (mk_result 200 "EC2 start/stop check completed successfully.").
Proof.
  intros Hd.
  exact (proj1 (lambda_handler_run P arn Ev Ctx event context w response Hd)).
Qed.

Lemma handler_result_is_unconditional_witness :
  outcome (lambda_handler (all_refused morning [stopped_box; spare_box])
             sample_arn tt tt boot) =
  inr (mk_result 200 "EC2 start/stop check completed successfully.").
Proof.
  apply (handler_result_is_unconditional
           (all_refused morning [stopped_box; spare_box])
           sample_arn unit unit tt tt boot
           (mk_describe_response [mk_reservation [stopped_box; spare_box]])).
  reflexivity.
Defined.

(** ** Notifications *)

Lemma agree_refl {E A} (r : (E + A) * world * list effect) : agree r r.
Proof. now repeat split. Qed.

Lemma agree_bind {E A B} (m1 m2 : M E A) (k1 k2 : A -> M E B) (w : world) :
  agree (m1 w) (m2 w) ->
  (forall a w', agree (k1 a w') (k2 a w')) ->
  agree (bind m1 k1 w) (bind m2 k2 w).
Proof.
  unfold agree, bind, outcome, final, effects, provider_calls.
  intros (Ho & Hf & Hc) Hk.
  destruct (m1 w) as [[r1 w1] t1], (m2 w) as [[r2 w2] t2].
  cbn [fst snd] in *. subst r2 w2.
  destruct r1 as [e|a]; cbn [fst snd]; [now repeat split|].
  specialize (Hk a w1). destruct Hk as (Ho' & Hf' & Hc').
  destruct (k1 a w1) as [[r1 w1'] t1'], (k2 a w1) as [[r2 w2'] t2'].
  cbn [fst snd] in *. subst.
  repeat split. rewrite !filter_app. now rewrite Hc, Hc'.
Qed.

Lemma agree_for_each {E A} (body1 body2 : A -> M E unit) :
  (forall x w, agree (body1 x w) (body2 x w)) ->
  forall xs w, agree (for_each xs body1 w) (for_each xs body2 w).
Proof.
  intros Hb. induction xs as [|x xs IH]; intros w; cbn [for_each].
  - apply agree_refl.
  - apply agree_bind; [apply Hb | intros _ w'; apply IH].
Qed.

Lemma sent_log_is_log (P : platform) (n : nat) (topic subject message : string) :
  is_log (sent_log P n topic subject message) = true.
Proof. unfold sent_log. now destruct (publish P n topic subject message). Qed.

(** One pass over an instance asks the same of the provider and ends in the
    same world whatever the publish calls answer. *)
Lemma process_instance_agree (P : platform)
    (f : nat -> string -> string -> string -> option exn)
    (arn : string) (start_time : datetime) (i : instance) (w : world) :
  agree (process_instance P arn start_time i w)
        (process_instance (with_publish P f) arn start_time i w).
Proof.
  destruct w as [c s p]. set (Q := with_publish P f).
  unfold agree, outcome, final, effects, provider_calls.
  destruct (in_workday (dt_time (utcnow P c))) eqn:Hw.
  - destruct (string_dec (Name (State i)) "stopped") as [Hs|Hs].
    + destruct (start_instances P s [InstanceId i]) as [e|] eqn:Hc.
      * use_run (process_start_raises P arn start_time i c s p e Hw Hs Hc).
        use_run (process_start_raises Q arn start_time i c s p e Hw Hs Hc).
        cbn [fst snd filter is_log negb]. now rewrite !sent_log_is_log.
      * use_run (process_start_ok P arn start_time i c s p Hw Hs Hc).
        use_run (process_start_ok Q arn start_time i c s p Hw Hs Hc).
        cbn [fst snd filter is_log negb]. now rewrite !sent_log_is_log.
    + use_run (process_idle_inside P arn start_time i c s p Hw Hs).
      now use_run (process_idle_inside Q arn start_time i c s p Hw Hs).
  - destruct (string_dec (Name (State i)) "running") as [Hs|Hs].
    + destruct (stop_instances P s [InstanceId i]) as [e|] eqn:Hc.
      * use_run (process_stop_raises P arn start_time i c s p e Hw Hs Hc).
        use_run (process_stop_raises Q arn start_time i c s p e Hw Hs Hc).
        cbn [fst snd filter is_log negb]. now rewrite !sent_log_is_log.
      * use_run (process_stop_ok P arn start_time i c s p Hw Hs Hc).
        use_run (process_stop_ok Q arn start_time i c s p Hw Hs Hc).
        cbn [fst snd filter is_log negb]. now rewrite !sent_log_is_log.
    + use_run (process_idle_outside P arn start_time i c s p Hw Hs).
      now use_run (process_idle_outside Q arn start_time i c s p Hw Hs).
Qed.

Lemma lambda_handler_agree (P : platform)
    (f : nat -> string -> string -> string -> option exn)
    (arn : string) (Ev Ctx : Type) (event : Ev) (context : Ctx) (w : world) :
  agree (lambda_handler P arn event context w)
        (lambda_handler (with_publish P f) arn event context w).
Proof.
  unfold lambda_handler.
  apply agree_bind; [apply agree_refl | intros start_time w1].
  apply agree_bind; [apply agree_refl | intros _ w2].
  apply agree_bind; [apply agree_refl | intros response w3].
  apply agree_bind; [| intros _ w4; apply agree_refl].
  apply agree_for_each. intros reservation w4.
  apply agree_for_each. intros instance w5.
  apply process_instance_agree.
Qed.

(** C7.  For every subject and message [send_sns_notification] returns
    without raising, it calls publish exactly once (no retry), and a publish
    that raises [e] is followed by one error line in the log and nothing
    else.  The processing of the instances does not depend on the outcome of
    the publish calls: with any other outcomes the handler returns the same
    result, ends in the same world and makes the same calls to the
    provider. *)
Theorem notification_failure_is_swallowed (P : platform)
    (arn subject message : string) (w : world) :
  outcome (send_sns_notification P arn subject message w) = inr tt /\
  publish_calls (effects (send_sns_notification P arn subject message w)) =
  [Publish arn subject message] /\
  (forall e,
      publish P (publishes w) arn subject message = Some e ->
      effects (send_sns_notification P arn subject message w) =
      [Publish arn subject message;
       LogError ("Failed to send SNS notification: " ++ e)]) /\
  (forall f (Ev Ctx : Type) (event : Ev) (context : Ctx) w',
      agree (lambda_handler P arn event context w')
            (lambda_handler (with_publish P f) arn event context w')).
Proof.
  destruct w as [c s p]. rewrite send_sns_notification_run.
  cbn [outcome effects fst snd publishes].
  split; [reflexivity|]. split.
  - unfold publish_calls, sent_log.
    now destruct (publish P p arn subject message).
  - split.
    + intros e He. unfold sent_log. now rewrite He.
    + intros f Ev Ctx event context w'. apply lambda_handler_agree.
Qed.

Lemma notification_failure_is_swallowed_witness :
  effects (send_sns_notification (all_refused morning [stopped_box]) sample_arn
             "EC2 Instance STARTED" "Result        : SUCCESS" boot) =
  [Publish sample_arn "EC2 Instance STARTED" "Result        : SUCCESS";
   LogError "Failed to send SNS notification: EndpointConnectionError"].
Proof.
  apply (notification_failure_is_swallowed (all_refused morning [stopped_box])
           sample_arn "EC2 Instance STARTED" "Result        : SUCCESS" boot).
  reflexivity.
Defined.

(** ** Idempotence *)

(** C8.  An instance that is already in the target state of the current
    time (running inside the window, stopped outside of it) gets no call at
    all: no start, no stop, no publish.  And the policy applied a second
    time, at the same time of day, to the state the first application left
    in [current_state] makes no call and changes nothing. *)
Theorem rerun_in_target_state_is_noop (P : platform) (arn : string)
    (start_time : datetime) (i : instance) (w : world) :
  (in_workday (dt_time (utcnow P (clock_reads w))) = true ->
   Name (State i) = "running" ->
   provider_calls (effects (process_instance P arn start_time i w)) = []) /\
  (in_workday (dt_time (utcnow P (clock_reads w))) = false ->
   Name (State i) = "stopped" ->
   provider_calls (effects (process_instance P arn start_time i w)) = []) /\
  (forall t id state w0 action current_state w1 evs,
      change_state P t id state w0 = (inr (action, current_state), w1, evs) ->
      change_state P t id current_state w1 = (inr (None, current_state), w1, [])).
Proof.
  split; [|split].
  - intros Hw Hs. destruct w as [c s p]. cbn [clock_reads] in Hw.
    use_run (process_idle_inside P arn start_time i c s p Hw); [reflexivity|].
    now rewrite Hs.
  - intros Hw Hs. destruct w as [c s p]. cbn [clock_reads] in Hw.
    use_run (process_idle_outside P arn start_time i c s p Hw); [reflexivity|].
    now rewrite Hs.
  - intros t id state w0 action current_state w1 evs.
    unfold change_state. destruct (in_workday t).
    + destruct (state =? "stopped") eqn:Hs.
      * cbv [bind ec2_start_instances raising ret].
        destruct (start_instances P (state_changes w0) [id]); [discriminate|].
        intros H. now inversion H.
      * cbv [ret]. intros H. inversion H; subst. now rewrite Hs.
    + destruct (state =? "running") eqn:Hs.
      * cbv [bind ec2_stop_instances raising ret].
        destruct (stop_instances P (state_changes w0) [id]); [discriminate|].
        intros H. now inversion H.
      * cbv [ret]. intros H. inversion H; subst. now rewrite Hs.
Qed.

Lemma rerun_in_target_state_is_noop_witness :
  provider_calls
    (effects (process_instance (healthy morning [running_box]) sample_arn
                morning running_box boot)) = [] /\
  provider_calls
    (effects (process_instance (healthy evening [stopped_box]) sample_arn
                evening stopped_box boot)) = [] /\
  change_state (healthy morning [stopped_box]) (dt_time morning) "i-0a1b2c3d"
    "running" (mk_world 0 1 0) =
  (inr (None, "running"), mk_world 0 1 0, []).
Proof.
  split; [|split].
  - apply (proj1 (rerun_in_target_state_is_noop (healthy morning [running_box])
                    sample_arn morning running_box boot)); reflexivity.
  - apply (proj1 (proj2 (rerun_in_target_state_is_noop
                           (healthy evening [stopped_box])
                           sample_arn evening stopped_box boot))); reflexivity.
  - apply (proj2 (proj2 (rerun_in_target_state_is_noop
                           (healthy morning [stopped_box])
                           sample_arn morning stopped_box boot))
             (dt_time morning) "i-0a1b2c3d" "stopped" boot (Some "STARTED")
             "running" (mk_world 0 1 0) [StartInstances ["i-0a1b2c3d"]]).
    reflexivity.
Defined.

(** ** Reports *)

Lemma read_tag_name_kept (v : tag_vars) (t : tag) :
  Key t <> "Name" -> instance_name (read_tag v t) = instance_name v.
Proof.
  intros H. apply String.eqb_neq in H. unfold read_tag. rewrite H.
  now destruct (Key t =? "Environment"), (Key t =? "Owner").
Qed.

Lemma read_tag_environment_kept (v : tag_vars) (t : tag) :
  Key t <> "Environment" -> environment (read_tag v t) = environment v.
Proof.
  intros H. apply String.eqb_neq in H. unfold read_tag. rewrite H.
  now destruct (Key t =? "Name"), (Key t =? "Owner").
Qed.

Lemma read_tag_owner_kept (v : tag_vars) (t : tag) :
  Key t <> "Owner" -> owner (read_tag v t) = owner v.
Proof.
  intros H. apply String.eqb_neq in H. unfold read_tag. rewrite H.
  now destruct (Key t =? "Name"), (Key t =? "Environment").
Qed.

Section Tag_loop.

Variables (key : string) (field : tag_vars -> string).

Hypothesis kept :
  forall v t, Key t <> key -> field (read_tag v t) = field v.

Hypothesis assigned :
  forall v x, field (read_tag v (mk_tag key x)) = x.

(** Tags with other keys leave the variable as it is. *)
Lemma tag_loop_absent (tags : list tag) (v : tag_vars) :
  ~ In key (map Key tags) -> field (fold_left read_tag tags v) = field v.
Proof.
  revert v. induction tags as [|t tags IH]; intros v H; cbn [fold_left].
  - reflexivity.
  - cbn [map In] in H. rewrite IH by tauto. apply kept. tauto.
Qed.

(** With one tag per key the variable ends as the value of its tag. *)
Lemma tag_loop_present (tags : list tag) (v : tag_vars) (x : string) :
  NoDup (map Key tags) -> In (mk_tag key x) tags ->
  field (fold_left read_tag tags v) = x.
Proof.
  revert v. induction tags as [|t tags IH]; intros v Hnd Hin; [easy|].
  cbn [map] in Hnd. inversion Hnd as [|k ks Hk Hnd']; subst.
  cbn [fold_left]. destruct Hin as [->|Hin].
  - rewrite tag_loop_absent by exact Hk. apply assigned.
  - now apply IH.
Qed.

End Tag_loop.

Lemma untagged_name (i : instance) :
  untagged "Name" i -> instance_name (read_tags i) = "N/A".
Proof.
  unfold untagged, read_tags. intros H. destruct (Tags i) as [tags|]; [|easy].
  now rewrite (tag_loop_absent "Name" instance_name read_tag_name_kept)
    by now apply H.
Qed.

Lemma untagged_environment (i : instance) :
  untagged "Environment" i -> environment (read_tags i) = "N/A".
Proof.
  unfold untagged, read_tags. intros H. destruct (Tags i) as [tags|]; [|easy].
  now rewrite (tag_loop_absent "Environment" environment
                 read_tag_environment_kept) by now apply H.
Qed.

Lemma untagged_owner (i : instance) :
  untagged "Owner" i -> owner (read_tags i) = "N/A".
Proof.
  unfold untagged, read_tags. intros H. destruct (Tags i) as [tags|]; [|easy].
  now rewrite (tag_loop_absent "Owner" owner read_tag_owner_kept)
    by now apply H.
Qed.

(** The variables of an instance that carries one tag per key. *)
Lemma tagged_values (i : instance) (tags : list tag) (X Y Z : string) :
  Tags i = Some tags -> NoDup (map Key tags) ->
  In (mk_tag "Name" X) tags ->
  In (mk_tag "Environment" Y) tags ->
  In (mk_tag "Owner" Z) tags ->
  read_tags i = mk_tag_vars X Y Z.
Proof.
  intros Ht Hnd Hx Hy Hz. unfold read_tags. rewrite Ht.
  pose proof (tag_loop_present "Name" instance_name read_tag_name_kept
                (fun _ _ => eq_refl) tags default_tag_vars X Hnd Hx) as Ex.
  pose proof (tag_loop_present "Environment" environment
                read_tag_environment_kept
                (fun _ _ => eq_refl) tags default_tag_vars Y Hnd Hy) as Ey.
  pose proof (tag_loop_present "Owner" owner read_tag_owner_kept
                (fun _ _ => eq_refl) tags default_tag_vars Z Hnd Hz) as Ez.
  destruct (fold_left read_tag tags default_tag_vars). cbn in *. now subst.
Qed.

(** Finds a line in a report, going down the report line by line. *)
Ltac find_line :=
  unfold has_line, success_message, failure_message;
  repeat first
    [ apply infixb_here3 | apply infixb_here | apply infixb_refl
    | apply infixb_skip ].

Lemma success_message_lines
    (action id name reg type previous current env own exec dur : string) :
  let message :=
    success_message action id name reg type previous current env own exec dur in
  has_line "Action        : " action message /\
  has_line "Instance ID   : " id message /\
  has_line "Instance Name : " name message /\
  has_line "Region        : " reg message /\
  has_line "Instance Type : " type message /\
  has_line "Previous State: " previous message /\
  has_line "Current State : " current message /\
  has_line "Environment   : " env message /\
  has_line "Owner         : " own message /\
  infixb "Triggered By  : EventBridge Rule - ec2-start-stop-instances" message = true /\
  has_line "Execution Time: " exec message /\
  infixb ("Duration      : " ++ dur ++ " seconds") message = true.
Proof.
  cbv zeta. repeat split; find_line.
Qed.

Lemma sent_log_not_publish (P : platform) (n : nat)
    (topic subject message topic' subject' message' : string) :
  sent_log P n topic subject message <> Publish topic' subject' message'.
Proof. unfold sent_log. now destruct (publish P n topic subject message). Qed.

(** What one pass over an instance publishes: a success report after a
    start or a stop that returned, a failure report after one that raised,
    and nothing otherwise. *)
Lemma published_report (P : platform) (arn : string) (start_time : datetime)
    (i : instance) (w : world) (topic subject message : string) :
  In (Publish topic subject message)
     (effects (process_instance P arn start_time i w)) ->
  topic = arn /\
  ((exists action current exec dur,
       (action = "STARTED" /\ current = "running" \/
        action = "STOPPED" /\ current = "stopped") /\
       subject = "EC2 Instance " ++ action /\
       message =
       success_message action (InstanceId i) (instance_name (read_tags i))
         region (get_default (InstanceType i) "N/A") (Name (State i)) current
         (environment (read_tags i)) (owner (read_tags i)) exec dur) \/
   (exists exec dur e,
       subject = "EC2 Instance FAILED" /\
       message =
       failure_message None (InstanceId i) (instance_name (read_tags i))
         region (get_default (InstanceType i) "N/A") (Name (State i))
         (environment (read_tags i)) (owner (read_tags i)) exec dur e)).
Proof.
  destruct w as [c s p].
  destruct (in_workday (dt_time (utcnow P c))) eqn:Hw.
  - destruct (string_dec (Name (State i)) "stopped") as [Hs|Hs].
    + destruct (start_instances P s [InstanceId i]) as [e|] eqn:Hc.
      * use_run (process_start_raises P arn start_time i c s p e Hw Hs Hc).
        cbn [effects snd In]. rewrite Hs.
        intros [H|[H|[H|[H|[H|[]]]]]]; try discriminate;
          try (now apply sent_log_not_publish in H).
        inversion H; subst. split; [reflexivity|]. right. now eexists _, _, _.
      * use_run (process_start_ok P arn start_time i c s p Hw Hs Hc).
        cbn [effects snd In]. rewrite Hs.
        intros [H|[H|[H|[H|[]]]]]; try discriminate;
          try (now apply sent_log_not_publish in H).
        inversion H; subst. split; [reflexivity|]. left.
        exists "STARTED", "running". eexists _, _. now repeat split; [left|..].
    + use_run (process_idle_inside P arn start_time i c s p Hw Hs).
      cbn [effects snd In]. now intros [H|[]].
  - destruct (string_dec (Name (State i)) "running") as [Hs|Hs].
    + destruct (stop_instances P s [InstanceId i]) as [e|] eqn:Hc.
      * use_run (process_stop_raises P arn start_time i c s p e Hw Hs Hc).
        cbn [effects snd In]. rewrite Hs.
        intros [H|[H|[H|[H|[H|[]]]]]]; try discriminate;
          try (now apply sent_log_not_publish in H).
        inversion H; subst. split; [reflexivity|]. right. now eexists _, _, _.
      * use_run (process_stop_ok P arn start_time i c s p Hw Hs Hc).
        cbn [effects snd In]. rewrite Hs.
        intros [H|[H|[H|[H|[]]]]]; try discriminate;
          try (now apply sent_log_not_publish in H).
        inversion H; subst. split; [reflexivity|]. left.
        exists "STOPPED", "stopped". eexists _, _. now repeat split; [right|..].
    + use_run (process_idle_outside P arn start_time i c s p Hw Hs).
      cbn [effects snd In]. now intros [H|[]].
Qed.

Lemma process_instance_lists_nothing (P : platform) (arn : string)
    (start_time : datetime) (i : instance) (w : world)
    (filters : list ec2_filter) :
  ~ In (DescribeInstances filters)
       (effects (process_instance P arn start_time i w)).
Proof.
  destruct w as [c s p].
  assert (Hlog : forall n t sj m,
             sent_log P n t sj m <> DescribeInstances filters).
  { intros n t sj m. unfold sent_log. now destruct (publish P n t sj m). }
  destruct (in_workday (dt_time (utcnow P c))) eqn:Hw.
  - destruct (string_dec (Name (State i)) "stopped") as [Hs|Hs].
    + destruct (start_instances P s [InstanceId i]) as [e|] eqn:Hc.
      * use_run (process_start_raises P arn start_time i c s p e Hw Hs Hc).
        cbn [effects snd In].
        intros [H|[H|[H|[H|[H|[]]]]]]; try discriminate; now apply Hlog in H.
      * use_run (process_start_ok P arn start_time i c s p Hw Hs Hc).
        cbn [effects snd In].
        intros [H|[H|[H|[H|[]]]]]; try discriminate; now apply Hlog in H.
    + use_run (process_idle_inside P arn start_time i c s p Hw Hs).
      cbn [effects snd In]. now intros [H|[]].
  - destruct (string_dec (Name (State i)) "running") as [Hs|Hs].
    + destruct (stop_instances P s [InstanceId i]) as [e|] eqn:Hc.
      * use_run (process_stop_raises P arn start_time i c s p e Hw Hs Hc).
        cbn [effects snd In].
        intros [H|[H|[H|[H|[H|[]]]]]]; try discriminate; now apply Hlog in H.
      * use_run (process_stop_ok P arn start_time i c s p Hw Hs Hc).
        cbn [effects snd In].
        intros [H|[H|[H|[H|[]]]]]; try discriminate; now apply Hlog in H.
    + use_run (process_idle_outside P arn start_time i c s p Hw Hs).
      cbn [effects snd In]. now intros [H|[]].
Qed.

(** C10.  In every success notification the line [Current State] holds the
    target state the script assumes ([running] in a report of a start,
    [stopped] in a report of a stop) and the line [Previous State] holds the
    state read when the instances were listed; the pass over the instance
    never lists the instances again. *)
Theorem success_report_states (P : platform) (arn : string)
    (start_time : datetime) (i : instance) (w : world)
    (topic subject message : string) :
  In (Publish topic subject message)
     (effects (process_instance P arn start_time i w)) ->
  (subject = "EC2 Instance STARTED" ->
   has_line "Previous State: " (Name (State i)) message /\
   has_line "Current State : " "running" message) /\
  (subject = "EC2 Instance STOPPED" ->
   has_line "Previous State: " (Name (State i)) message /\
   has_line "Current State : " "stopped" message) /\
  (forall filters,
      ~ In (DescribeInstances filters)
           (effects (process_instance P arn start_time i w))).
Proof.
  intros Hin. apply published_report in Hin.
  destruct Hin as
    [_ [(action & current & exec & dur & Hact & Hsub & Hmsg)
       | (exec & dur & e & Hsub & Hmsg)]].
  - split; [|split].
    + intros Hs. rewrite Hs in Hsub.
      destruct Hact as [[-> ->]|[-> ->]]; [|discriminate].
      subst message. split; find_line.
    + intros Hs. rewrite Hs in Hsub.
      destruct Hact as [[-> ->]|[-> ->]]; [discriminate|].
      subst message. split; find_line.
    + intros filters. apply process_instance_lists_nothing.
  - split; [|split].
    + intros Hs. rewrite Hs in Hsub. discriminate.
    + intros Hs. rewrite Hs in Hsub. discriminate.
    + intros filters. apply process_instance_lists_nothing.
Qed.

Lemma success_report_states_witness :
  has_line "Previous State: " "stopped"
    (success_message "STARTED" "i-0a1b2c3d" "build-box" "us-east-2" "t3.micro"
       "stopped" "running" "dev" "sneha"
       "2022-01-08T04:00:00.000000+00:00" "0.25") /\
  has_line "Current State : " "running"
    (success_message "STARTED" "i-0a1b2c3d" "build-box" "us-east-2" "t3.micro"
       "stopped" "running" "dev" "sneha"
       "2022-01-08T04:00:00.000000+00:00" "0.25").
Proof.
  apply (proj1 (success_report_states (healthy morning [stopped_box])
                  sample_arn morning stopped_box boot sample_arn
                  "EC2 Instance STARTED"
                  (success_message "STARTED" "i-0a1b2c3d" "build-box"
                     "us-east-2" "t3.micro" "stopped" "running" "dev" "sneha"
                     "2022-01-08T04:00:00.000000+00:00" "0.25")
                  (or_intror (or_intror (or_introl eq_refl))))).
  reflexivity.
Defined.

Lemma sent_log_is_publish (P : platform) (n : nat) (topic subject message : string) :
  is_publish (sent_log P n topic subject message) = false.
Proof. unfold sent_log. now destruct (publish P n topic subject message). Qed.

(** C4.  When an action is taken on an instance (a start inside the window
    or a stop outside of it, and the call returns), exactly one notification
    is published, and its message has a line for the action, the instance
    identifier, the name, the region, the instance type, the previous and
    the current state, the environment, the owner, the trigger source, the
    execution timestamp and the duration.  In particular, for an instance
    tagged Name=X, Environment=Y and Owner=Z, the message contains X, Y and
    Z as they are. *)
Theorem report_contents (P : platform) (arn : string) (start_time : datetime)
    (i : instance) (w : world) :
  (in_workday (dt_time (utcnow P (clock_reads w))) = true /\
   Name (State i) = "stopped" /\
   start_instances P (state_changes w) [InstanceId i] = None) \/
  (in_workday (dt_time (utcnow P (clock_reads w))) = false /\
   Name (State i) = "running" /\
   stop_instances P (state_changes w) [InstanceId i] = None) ->
  exists action current message,
    (action = "STARTED" /\ current = "running" \/
     action = "STOPPED" /\ current = "stopped") /\
    publish_calls (effects (process_instance P arn start_time i w)) =
    [Publish arn ("EC2 Instance " ++ action) message] /\
    has_line "Action        : " action message /\
    has_line "Instance ID   : " (InstanceId i) message /\
    has_line "Instance Name : " (instance_name (read_tags i)) message /\
    has_line "Region        : " "us-east-2" message /\
    has_line "Instance Type : " (get_default (InstanceType i) "N/A") message /\
    has_line "Previous State: " (Name (State i)) message /\
    has_line "Current State : " current message /\
    has_line "Environment   : " (environment (read_tags i)) message /\
    has_line "Owner         : " (owner (read_tags i)) message /\
    infixb "Triggered By  : EventBridge Rule - ec2-start-stop-instances"
      message = true /\
    has_line "Execution Time: "
      (isoformat P (utcnow P (S (clock_reads w)))) message /\
    infixb ("Duration      : "
            ++ seconds_2f P start_time (utcnow P (S (clock_reads w)))
            ++ " seconds") message = true /\
    (forall tags X Y Z,
        Tags i = Some tags -> NoDup (map Key tags) ->
        In (mk_tag "Name" X) tags ->
        In (mk_tag "Environment" Y) tags ->
        In (mk_tag "Owner" Z) tags ->
        infixb X message = true /\
        infixb Y message = true /\
        infixb Z message = true).
Proof.
  destruct w as [c s p]. cbn [clock_reads state_changes].
  intros [(Hw & Hs & Hc)|(Hw & Hs & Hc)].
  - exists "STARTED", "running". eexists. split; [now left|]. split.
    + use_run (process_start_ok P arn start_time i c s p Hw Hs Hc).
      cbn [effects snd publish_calls filter is_publish].
      rewrite sent_log_is_publish. reflexivity.
    + rewrite Hs.
      destruct (success_message_lines "STARTED" (InstanceId i)
                  (instance_name (read_tags i)) region
                  (get_default (InstanceType i) "N/A") "stopped" "running"
                  (environment (read_tags i)) (owner (read_tags i))
                  (isoformat P (utcnow P (S c)))
                  (seconds_2f P start_time (utcnow P (S c))))
        as (L1 & L2 & L3 & L4 & L5 & L6 & L7 & L8 & L9 & L10 & L11 & L12).
      repeat (split; [assumption|]).
      intros tags X Y Z Ht Hnd Hx Hy Hz.
      rewrite (tagged_values i tags X Y Z Ht Hnd Hx Hy Hz) in L3, L8, L9.
      cbn [instance_name environment owner] in L3, L8, L9.
      rewrite (tagged_values i tags X Y Z Ht Hnd Hx Hy Hz).
      cbn [instance_name environment owner].
      split; [|split]; eapply infixb_value; eassumption.
  - exists "STOPPED", "stopped". eexists. split; [now right|]. split.
    + use_run (process_stop_ok P arn start_time i c s p Hw Hs Hc).
      cbn [effects snd publish_calls filter is_publish].
      rewrite sent_log_is_publish. reflexivity.
    + rewrite Hs.
      destruct (success_message_lines "STOPPED" (InstanceId i)
                  (instance_name (read_tags i)) region
                  (get_default (InstanceType i) "N/A") "running" "stopped"
                  (environment (read_tags i)) (owner (read_tags i))
                  (isoformat P (utcnow P (S c)))
                  (seconds_2f P start_time (utcnow P (S c))))
        as (L1 & L2 & L3 & L4 & L5 & L6 & L7 & L8 & L9 & L10 & L11 & L12).
      repeat (split; [assumption|]).
      intros tags X Y Z Ht Hnd Hx Hy Hz.
      rewrite (tagged_values i tags X Y Z Ht Hnd Hx Hy Hz) in L3, L8, L9.
      cbn [instance_name environment owner] in L3, L8, L9.
      rewrite (tagged_values i tags X Y Z Ht Hnd Hx Hy Hz).
      cbn [instance_name environment owner].
      split; [|split]; eapply infixb_value; eassumption.
Qed.

Lemma sample_tags_distinct : NoDup (map Key sample_tags).
Proof.
  cbn. repeat constructor; cbn; intuition discriminate.
Qed.

Lemma report_contents_witness :
  exists action current message,
    publish_calls
      (effects (process_instance (healthy morning [stopped_box]) sample_arn
                  morning stopped_box boot)) =
    [Publish sample_arn ("EC2 Instance " ++ action) message] /\
    has_line "Current State : " current message /\
    infixb "build-box" message = true /\
    infixb "dev" message = true /\
    infixb "sneha" message = true.
Proof.
  destruct (report_contents (healthy morning [stopped_box]) sample_arn morning
              stopped_box boot
              (or_introl (conj eq_refl (conj eq_refl eq_refl))))
    as (action & current & message & _ & Hpub & _ & _ & _ & _ & _ & _ & Hcur
        & _ & _ & _ & _ & _ & Htags).
  exists action, current, message.
  split; [exact Hpub|]. split; [exact Hcur|].
  apply (Htags sample_tags "build-box" "dev" "sneha" eq_refl
           sample_tags_distinct).
  - cbn. tauto.
  - cbn. tauto.
  - cbn. tauto.
Defined.

Lemma process_instance_logs_check (P : platform) (arn : string)
    (start_time : datetime) (i : instance) (w : world) :
  exists rest,
    effects (process_instance P arn start_time i w) =
    LogInfo (checking_line i) :: rest.
Proof.
  destruct w as [c s p].
  destruct (in_workday (dt_time (utcnow P c))) eqn:Hw.
  - destruct (string_dec (Name (State i)) "stopped") as [Hs|Hs].
    + destruct (start_instances P s [InstanceId i]) as [e|] eqn:Hc.
      * use_run (process_start_raises P arn start_time i c s p e Hw Hs Hc).
        now eexists.
      * use_run (process_start_ok P arn start_time i c s p Hw Hs Hc).
        now eexists.
    + use_run (process_idle_inside P arn start_time i c s p Hw Hs).
      now eexists.
  - destruct (string_dec (Name (State i)) "running") as [Hs|Hs].
    + destruct (stop_instances P s [InstanceId i]) as [e|] eqn:Hc.
      * use_run (process_stop_raises P arn start_time i c s p e Hw Hs Hc).
        now eexists.
      * use_run (process_stop_ok P arn start_time i c s p Hw Hs Hc).
        now eexists.
    + use_run (process_idle_outside P arn start_time i c s p Hw Hs).
      now eexists.
Qed.

(** C5, as stated, fails for the private address: the report has no line
    for it.  The report of a start of an instance that has no private
    address holds no [N/A] at all, and it is the very report of the same
    instance with an address. *)
Lemma missing_address_leaves_no_placeholder :
  PrivateIpAddress no_address_box = None /\
  exists message,
    publish_calls
      (effects (process_instance (healthy morning [no_address_box]) sample_arn
                  morning no_address_box boot)) =
    [Publish sample_arn "EC2 Instance STARTED" message] /\
    infixb "N/A" message = false /\
    publish_calls
      (effects (process_instance (healthy morning [stopped_box]) sample_arn
                  morning stopped_box boot)) =
    [Publish sample_arn "EC2 Instance STARTED" message].
Proof.
  split; [reflexivity|]. eexists. split; [vm_compute; reflexivity|].
  split; vm_compute; reflexivity.
Qed.

(** C5, amended.  Reading the description of an instance never raises: the
    pass over it returns.  For an instance without a Name, Environment or
    Owner tag (or without tags at all) or without an instance type, the
    corresponding line of every report composed for it holds [N/A].  For an
    instance without a private address, [N/A] stands for the address in the
    line the script logs for the instance; the report has no line for the
    address. *)
Theorem missing_fields_default (P : platform) (arn : string)
    (start_time : datetime) (i : instance) (w : world) :
  outcome (process_instance P arn start_time i w) = inr tt /\
  (PrivateIpAddress i = None ->
   In (LogInfo (checking_line i))
      (effects (process_instance P arn start_time i w)) /\
   infixb (", " ++ "N/A" ++ ") - Current state: ") (checking_line i) = true) /\
  (forall topic subject message,
      In (Publish topic subject message)
         (effects (process_instance P arn start_time i w)) ->
      (untagged "Name" i -> has_line "Instance Name : " "N/A" message) /\
      (untagged "Environment" i -> has_line "Environment   : " "N/A" message) /\
      (untagged "Owner" i -> has_line "Owner         : " "N/A" message) /\
      (InstanceType i = None -> has_line "Instance Type : " "N/A" message)).
Proof.
  split; [apply process_instance_returns|]. split.
  - intros Hip. split.
    + destruct (process_instance_logs_check P arn start_time i w) as [rest ->].
      now left.
    + unfold checking_line. rewrite Hip. cbn [get_default].
      repeat first [apply infixb_here3 | apply infixb_skip].
  - intros topic subject message Hin. apply published_report in Hin.
    destruct Hin as
      [_ [(action & current & exec & dur & _ & _ & ->)
         | (exec & dur & e & _ & ->)]].
    + repeat split; intros H;
        [rewrite (untagged_name i H) | rewrite (untagged_environment i H)
        | rewrite (untagged_owner i H) | rewrite H; cbn [get_default]];
        find_line.
    + repeat split; intros H;
        [rewrite (untagged_name i H) | rewrite (untagged_environment i H)
        | rewrite (untagged_owner i H) | rewrite H; cbn [get_default]];
        find_line.
Qed.

Lemma missing_fields_default_witness :
  has_line "Instance Name : " "N/A"
    (success_message "STARTED" "i-0d5e6f7a" "N/A" "us-east-2" "N/A"
       "stopped" "running" "N/A" "N/A"
       "2022-01-08T04:00:00.000000+00:00" "0.25") /\
  infixb (", " ++ "N/A" ++ ") - Current state: ") (checking_line bare_box) = true.
Proof.
  split.
  - apply (proj1 (proj2 (proj2 (missing_fields_default
                                  (healthy morning [bare_box])
                                  sample_arn morning bare_box boot))
                    sample_arn "EC2 Instance STARTED"
                    (success_message "STARTED" "i-0d5e6f7a" "N/A" "us-east-2"
                       "N/A" "stopped" "running" "N/A" "N/A"
                       "2022-01-08T04:00:00.000000+00:00" "0.25")
                    (or_intror (or_intror (or_introl eq_refl))))).
    unfold untagged. intros tags H. discriminate H.
  - apply (proj1 (proj2 (missing_fields_default (healthy morning [bare_box])
                           sample_arn morning bare_box boot))).
    reflexivity.
Defined.

(** * Further properties of the script *)

(** Splits a pass over an instance into the six runs it can take and
    rewrites the pass with the equation of each. *)
Ltac instance_cases P arn st i c s p :=
  let Hw := fresh "Hw" in
  let Hs := fresh "Hs" in
  let Hc := fresh "Hc" in
  let e := fresh "e" in
  destruct (in_workday (dt_time (utcnow P c))) eqn:Hw;
  [ destruct (string_dec (Name (State i)) "stopped") as [Hs|Hs];
    [ destruct (start_instances P s [InstanceId i]) as [e|] eqn:Hc;
      [ use_run (process_start_raises P arn st i c s p e Hw Hs Hc)
      | use_run (process_start_ok P arn st i c s p Hw Hs Hc) ]
    | use_run (process_idle_inside P arn st i c s p Hw Hs) ]
  | destruct (string_dec (Name (State i)) "running") as [Hs|Hs];
    [ destruct (stop_instances P s [InstanceId i]) as [e|] eqn:Hc;
      [ use_run (process_stop_raises P arn st i c s p e Hw Hs Hc)
      | use_run (process_stop_ok P arn st i c s p Hw Hs Hc) ]
    | use_run (process_idle_outside P arn st i c s p Hw Hs) ] ].

(** ** Runs as sequences of passes *)

Section Chunks.

Variables (A : Type) (run_of : A -> world -> list effect).

Lemma passes_in (xs : list A) (chunks : list (list effect)) (ev : effect) :
  passes run_of xs chunks -> In ev (List.concat chunks) ->
  exists x w', In x xs /\ In ev (run_of x w').
Proof.
  induction 1 as [|x chunk xs chunks [w' ->] _ IH]; cbn [List.concat In].
  - easy.
  - intros H. apply in_app_or in H. destruct H as [H|H].
    + exists x, w'. split; [now left | exact H].
    + destruct (IH H) as (y & w2 & Hy & Hev). exists y, w2.
      split; [now right | exact Hev].
Qed.

Lemma passes_filter (keep : effect -> bool) (calls : A -> list effect)
    (xs : list A) (chunks : list (list effect)) :
  (forall x w', List.filter keep (run_of x w') = calls x) ->
  passes run_of xs chunks ->
  List.filter keep (List.concat chunks) = flat_map calls xs.
Proof.
  intros Hcalls. induction 1 as [|x chunk xs chunks [w' ->] _ IH];
    cbn [List.concat flat_map]; [reflexivity|].
  now rewrite filter_app, Hcalls, IH.
Qed.

Lemma passes_count (keep1 keep2 : effect -> bool)
    (xs : list A) (chunks : list (list effect)) :
  (forall x w',
      List.length (List.filter keep1 (run_of x w')) =
      List.length (List.filter keep2 (run_of x w'))) ->
  passes run_of xs chunks ->
  List.length (List.filter keep1 (List.concat chunks)) =
  List.length (List.filter keep2 (List.concat chunks)).
Proof.
  intros Hlen. induction 1 as [|x chunk xs chunks [w' ->] _ IH];
    cbn [List.concat]; [reflexivity|].
  now rewrite !filter_app, !List.length_app, Hlen, IH.
Qed.

End Chunks.

(** The handler as a sequence of passes, once the listing has returned. *)
Lemma lambda_handler_passes (P : platform) (arn : string) (Ev Ctx : Type)
    (event : Ev) (context : Ctx) (w : world) (response : describe_response) :
  describe_instances P workday_filter = inr response ->
  exists chunks,
    effects (lambda_handler P arn event context w) =
    (LogInfo "Fetching instances with tag Reboot=WORKDAY"
     :: DescribeInstances workday_filter
     :: List.concat chunks
     ++ [LogInfo "EC2 start/stop check and SNS notification completed successfully."])%list /\
    passes
      (fun i w' =>
         effects (process_instance P arn (utcnow P (clock_reads w)) i w'))
      (all_instances response) chunks.
Proof.
  intros Hd.
  destruct (lambda_handler_run P arn Ev Ctx event context w response Hd)
    as (_ & chunks & Heff & Hall).
  exists chunks. split; [exact Heff | exact Hall].
Qed.

(** The run of the handler when the listing raises. *)
Lemma lambda_handler_listing_raises (P : platform) (arn : string)
    (Ev Ctx : Type) (event : Ev) (context : Ctx) (w : world) (e : exn) :
  describe_instances P workday_filter = inl e ->
  lambda_handler P arn event context w =
  (inl e,
   mk_world (S (clock_reads w)) (state_changes w) (publishes w),
   [LogInfo "Fetching instances with tag Reboot=WORKDAY";
    DescribeInstances workday_filter]).
Proof.
  intros Hd. unfold lambda_handler.
  cbv [bind utc_now log_info emit ec2_describe_instances ret app].
  fold workday_filter. now rewrite Hd.
Qed.

Lemma sent_log_is_listing (P : platform) (n : nat) (topic subject message : string) :
  is_listing (sent_log P n topic subject message) = false.
Proof. unfold sent_log. now destruct (publish P n topic subject message). Qed.

Lemma sent_log_is_state_change (P : platform) (n : nat)
    (topic subject message : string) :
  is_state_change (sent_log P n topic subject message) = false.
Proof. unfold sent_log. now destruct (publish P n topic subject message). Qed.

Lemma pass_lists_nothing (P : platform) (arn : string) (start_time : datetime)
    (i : instance) (w : world) :
  listing_calls (effects (process_instance P arn start_time i w)) = [].
Proof.
  destruct w as [c s p]. unfold listing_calls.
  instance_cases P arn start_time i c s p;
    cbn [effects snd List.filter is_listing];
    rewrite ?sent_log_is_listing; reflexivity.
Qed.

(** One publish for every state change of a pass, none without one. *)
Lemma pass_publishes_per_call (P : platform) (arn : string)
    (start_time : datetime) (i : instance) (w : world) :
  List.length (publish_calls (effects (process_instance P arn start_time i w))) =
  List.length (state_change_calls (effects (process_instance P arn start_time i w))).
Proof.
  destruct w as [c s p]. unfold publish_calls, state_change_calls.
  instance_cases P arn start_time i c s p;
    cbn [effects snd List.filter is_publish is_state_change];
    rewrite ?sent_log_is_publish, ?sent_log_is_state_change; reflexivity.
Qed.

(** ** The listing *)

(** X1.  The handler does not catch an error of the listing: it ends with
    the exception of [describe_instances] when that call raises and with the
    fixed result otherwise.  When the listing raises, the listing is the
    only call made to the provider and the closing line is not logged. *)
Theorem handler_outcome_follows_listing (P : platform) (arn : string)
    (Ev Ctx : Type) (event : Ev) (context : Ctx) (w : world) :
  outcome (lambda_handler P arn event context w) =
  match describe_instances P workday_filter with
  | inl e => inl e
  | inr _ => inr handler_ok
  end /\
  (forall e,
      describe_instances P workday_filter = inl e ->
      provider_calls (effects (lambda_handler P arn event context w)) =
      [DescribeInstances workday_filter] /\
      ~ In (LogInfo "EC2 start/stop check and SNS notification completed successfully.")
           (effects (lambda_handler P arn event context w))).
Proof.
  split.
  - destruct (describe_instances P workday_filter) as [e|response] eqn:Hd.
    + now rewrite (lambda_handler_listing_raises P arn Ev Ctx event context w e Hd).
    + exact (proj1 (lambda_handler_run P arn Ev Ctx event context w response Hd)).
  - intros e Hd.
    rewrite (lambda_handler_listing_raises P arn Ev Ctx event context w e Hd).
    split; [reflexivity|]. cbn [effects snd In]. intros [H|[H|[]]]; discriminate.
Qed.

Lemma handler_outcome_follows_listing_witness :
  provider_calls
    (effects (lambda_handler
                (fixed_platform morning (inr sample_arn)
                   (inl "RequestLimitExceeded") None None None)
                sample_arn tt tt boot)) =
  [DescribeInstances workday_filter].
Proof.
  apply (proj2 (handler_outcome_follows_listing
                  (fixed_platform morning (inr sample_arn)
                     (inl "RequestLimitExceeded") None None None)
                  sample_arn unit unit tt tt boot) "RequestLimitExceeded").
  reflexivity.
Defined.

(** X2.  Every run of the handler lists the instances exactly once, with the
    filter [tag:Reboot] = [WORKDAY]; no pass over an instance lists them
    again. *)
Theorem handler_lists_once (P : platform) (arn : string)
    (Ev Ctx : Type) (event : Ev) (context : Ctx) (w : world) :
  listing_calls (effects (lambda_handler P arn event context w)) =
  [DescribeInstances [mk_filter "tag:Reboot" ["WORKDAY"]]].
Proof.
  destruct (describe_instances P workday_filter) as [e|response] eqn:Hd.
  - now rewrite (lambda_handler_listing_raises P arn Ev Ctx event context w e Hd).
  - destruct (lambda_handler_passes P arn Ev Ctx event context w response Hd)
      as (chunks & -> & Hall).
    unfold listing_calls. cbn [List.filter is_listing].
    rewrite filter_app.
    rewrite (passes_filter _ _ is_listing (fun _ => []) _ _
               (fun i w' => pass_lists_nothing P arn _ i w') Hall).
    cbn [List.filter is_listing]. rewrite app_nil_r.
    replace (flat_map (fun _ : instance => @nil effect) (all_instances response))
      with (@nil effect); [reflexivity|].
    clear Hall. induction (all_instances response) as [|i rest IH];
      [reflexivity | exact IH].
Qed.

(** X3.  When the listing returns no instance (no reservation, or only
    empty ones), the run logs its two lines around the listing, makes no
    other call and returns the fixed result. *)
Theorem empty_listing_run (P : platform) (arn : string)
    (Ev Ctx : Type) (event : Ev) (context : Ctx) (w : world)
    (response : describe_response) :
  describe_instances P workday_filter = inr response ->
  all_instances response = [] ->
  outcome (lambda_handler P arn event context w) = inr handler_ok /\
  effects (lambda_handler P arn event context w) =
  [LogInfo "Fetching instances with tag Reboot=WORKDAY";
   DescribeInstances workday_filter;
   LogInfo "EC2 start/stop check and SNS notification completed successfully."].
Proof.
  intros Hd Hnone.
  destruct (lambda_handler_run P arn Ev Ctx event context w response Hd)
    as (Hout & chunks & Heff & Hall).
  split; [exact Hout|]. rewrite Heff, Hnone in *.
  inversion Hall. reflexivity.
Qed.

Lemma empty_listing_run_witness :
  effects (lambda_handler
             (fixed_platform morning (inr sample_arn)
                (inr (mk_describe_response
                        [mk_reservation []; mk_reservation []]))
                None None None)
             sample_arn tt tt boot) =
  [LogInfo "Fetching instances with tag Reboot=WORKDAY";
   DescribeInstances workday_filter;
   LogInfo "EC2 start/stop check and SNS notification completed successfully."].
Proof.
  apply (empty_listing_run
           (fixed_platform morning (inr sample_arn)
              (inr (mk_describe_response
                      [mk_reservation []; mk_reservation []]))
              None None None)
           sample_arn unit unit tt tt boot
           (mk_describe_response [mk_reservation []; mk_reservation []]));
    reflexivity.
Defined.

(** ** State changes of a run *)

Lemma flat_map_guarded {A B : Type} (keep : A -> bool) (f : A -> B)
    (xs : list A) :
  flat_map (fun x => if keep x then [f x] else []) xs =
  map f (List.filter keep xs).
Proof.
  induction xs as [|x xs IH]; cbn [flat_map List.filter map]; [reflexivity|].
  rewrite IH. now destruct (keep x).
Qed.

Lemma handler_state_changes (P : platform) (arn : string) (Ev Ctx : Type)
    (event : Ev) (context : Ctx) (w : world) (response : describe_response)
    (chunks : list (list effect)) :
  effects (lambda_handler P arn event context w) =
  (LogInfo "Fetching instances with tag Reboot=WORKDAY"
   :: DescribeInstances workday_filter
   :: List.concat chunks
   ++ [LogInfo "EC2 start/stop check and SNS notification completed successfully."])%list ->
  state_change_calls (effects (lambda_handler P arn event context w)) =
  state_change_calls (List.concat chunks) /\
  publish_calls (effects (lambda_handler P arn event context w)) =
  publish_calls (List.concat chunks).
Proof.
  intros ->. unfold state_change_calls, publish_calls.
  cbn [List.filter is_state_change is_publish].
  rewrite !filter_app. cbn [List.filter is_state_change is_publish].
  now rewrite !app_nil_r.
Qed.

(** X4.  A run starts and stops listed instances only, one identifier per
    call: every start call of a run carries the identifier of a listed
    instance whose state was [stopped], every stop call that of a listed
    instance whose state was [running]. *)
Theorem state_changes_target_listed_instances (P : platform) (arn : string)
    (Ev Ctx : Type) (event : Ev) (context : Ctx) (w : world)
    (response : describe_response) (ev : effect) :
  describe_instances P workday_filter = inr response ->
  In ev (state_change_calls (effects (lambda_handler P arn event context w))) ->
  exists i,
    In i (all_instances response) /\
    (ev = StartInstances [InstanceId i] /\ Name (State i) = "stopped" \/
     ev = StopInstances [InstanceId i] /\ Name (State i) = "running").
Proof.
  intros Hd Hin.
  destruct (lambda_handler_passes P arn Ev Ctx event context w response Hd)
    as (chunks & Heff & Hall).
  rewrite (proj1 (handler_state_changes P arn Ev Ctx event context w response
                    chunks Heff)) in Hin.
  unfold state_change_calls in Hin. apply filter_In in Hin.
  destruct Hin as [Hin Hkind].
  destruct (passes_in _ _ _ _ ev Hall Hin) as (i & w' & Hi & Hev).
  exists i. split; [exact Hi|].
  assert (Hcall : In ev (state_change_calls
                           (effects (process_instance P arn
                                       (utcnow P (clock_reads w)) i w')))).
  { unfold state_change_calls. apply filter_In. now split. }
  rewrite process_instance_calls in Hcall.
  destruct (in_workday (dt_time (utcnow P (clock_reads w')))).
  - destruct (String.eqb_spec (Name (State i)) "stopped") as [Hs|Hs];
      [|easy]. destruct Hcall as [<-|[]]. now left.
  - destruct (String.eqb_spec (Name (State i)) "running") as [Hs|Hs];
      [|easy]. destruct Hcall as [<-|[]]. now right.
Qed.

Lemma state_changes_target_listed_instances_witness :
  exists i,
    In i [running_box; stopped_box] /\
    (StartInstances ["i-0a1b2c3d"] = StartInstances [InstanceId i] /\
     Name (State i) = "stopped" \/
     StartInstances ["i-0a1b2c3d"] = StopInstances [InstanceId i] /\
     Name (State i) = "running").
Proof.
  apply (state_changes_target_listed_instances
           (healthy morning [running_box; stopped_box]) sample_arn
           unit unit tt tt boot
           (mk_describe_response [mk_reservation [running_box; stopped_box]])
           (StartInstances ["i-0a1b2c3d"])).
  - reflexivity.
  - vm_compute. now left.
Defined.

(** X5.  While the clock stays inside the window for the whole run, the
    state changes of the run are the start calls of the listed instances
    whose state is [stopped], in the order of the listing, and no stop call.
    While it stays outside, they are the stop calls of the listed instances
    whose state is [running], in the order of the listing, and no start
    call. *)
Theorem steady_clock_calls (P : platform) (arn : string)
    (Ev Ctx : Type) (event : Ev) (context : Ctx) (w : world)
    (response : describe_response) :
  describe_instances P workday_filter = inr response ->
  ((forall n, in_workday (dt_time (utcnow P n)) = true) ->
   state_change_calls (effects (lambda_handler P arn event context w)) =
   map start_call
     (List.filter (fun i => Name (State i) =? "stopped")
        (all_instances response))) /\
  ((forall n, in_workday (dt_time (utcnow P n)) = false) ->
   state_change_calls (effects (lambda_handler P arn event context w)) =
   map stop_call
     (List.filter (fun i => Name (State i) =? "running")
        (all_instances response))).
Proof.
  intros Hd.
  destruct (lambda_handler_passes P arn Ev Ctx event context w response Hd)
    as (chunks & Heff & Hall).
  rewrite (proj1 (handler_state_changes P arn Ev Ctx event context w response
                    chunks Heff)).
  unfold state_change_calls. split; intros Hclock.
  - rewrite <- flat_map_guarded.
    apply (passes_filter instance
             (fun i w' =>
                effects (process_instance P arn (utcnow P (clock_reads w)) i w'))
             is_state_change
             (fun i => if Name (State i) =? "stopped"
                       then [start_call i] else []) _ _); [|exact Hall].
    intros i w'. cbv beta.
    fold (state_change_calls
            (effects (process_instance P arn (utcnow P (clock_reads w)) i w'))).
    now rewrite process_instance_calls, Hclock.
  - rewrite <- flat_map_guarded.
    apply (passes_filter instance
             (fun i w' =>
                effects (process_instance P arn (utcnow P (clock_reads w)) i w'))
             is_state_change
             (fun i => if Name (State i) =? "running"
                       then [stop_call i] else []) _ _); [|exact Hall].
    intros i w'. cbv beta.
    fold (state_change_calls
            (effects (process_instance P arn (utcnow P (clock_reads w)) i w'))).
    now rewrite process_instance_calls, Hclock.
Qed.

Lemma steady_clock_calls_witness :
  state_change_calls
    (effects (lambda_handler
                (healthy morning [stopped_box; running_box; pending_box; spare_box])
                sample_arn tt tt boot)) =
  [StartInstances ["i-0a1b2c3d"]; StartInstances ["i-0b2c3d4e"]] /\
  state_change_calls
    (effects (lambda_handler
                (healthy evening [stopped_box; running_box; pending_box; spare_box])
                sample_arn tt tt boot)) =
  [StopInstances ["i-0e4f5a6b"]].
Proof.
  split.
  - apply (proj1 (steady_clock_calls
                    (healthy morning
                       [stopped_box; running_box; pending_box; spare_box])
                    sample_arn unit unit tt tt boot
                    (mk_describe_response
                       [mk_reservation
                          [stopped_box; running_box; pending_box; spare_box]])
                    eq_refl)).
    intros n. reflexivity.
  - apply (proj2 (steady_clock_calls
                    (healthy evening
                       [stopped_box; running_box; pending_box; spare_box])
                    sample_arn unit unit tt tt boot
                    (mk_describe_response
                       [mk_reservation
                          [stopped_box; running_box; pending_box; spare_box]])
                    eq_refl)).
    intros n. reflexivity.
Defined.

(** X6.  A run publishes one notification for every start or stop call it
    makes, whether the call returned or raised, and none otherwise. *)
Theorem one_notification_per_state_change (P : platform) (arn : string)
    (Ev Ctx : Type) (event : Ev) (context : Ctx) (w : world) :
  List.length (publish_calls (effects (lambda_handler P arn event context w))) =
  List.length (state_change_calls (effects (lambda_handler P arn event context w))).
Proof.
  destruct (describe_instances P workday_filter) as [e|response] eqn:Hd.
  - now rewrite (lambda_handler_listing_raises P arn Ev Ctx event context w e Hd).
  - destruct (lambda_handler_passes P arn Ev Ctx event context w response Hd)
      as (chunks & Heff & Hall).
    destruct (handler_state_changes P arn Ev Ctx event context w response
                chunks Heff) as [-> ->].
    apply (passes_count _ _ is_publish is_state_change _ _
             (fun i w' => pass_publishes_per_call P arn _ i w') Hall).
Qed.

(** ** Topic of the notifications *)

Lemma handler_publishes_to (P : platform) (arn : string) (Ev Ctx : Type)
    (event : Ev) (context : Ctx) (w : world) (topic subject message : string) :
  In (Publish topic subject message)
     (effects (lambda_handler P arn event context w)) ->
  topic = arn.
Proof.
  destruct (describe_instances P workday_filter) as [e|response] eqn:Hd.
  - rewrite (lambda_handler_listing_raises P arn Ev Ctx event context w e Hd).
    cbn [effects snd In]. intros [H|[H|[]]]; discriminate.
  - destruct (lambda_handler_passes P arn Ev Ctx event context w response Hd)
      as (chunks & -> & Hall).
    cbn [In]. intros [H|[H|H]]; try discriminate.
    apply in_app_or in H. destruct H as [H|[H|[]]]; [|discriminate].
    destruct (passes_in _ _ _ _ _ Hall H) as (i & w' & _ & Hev).
    now apply published_report in Hev.
Qed.

(** X7.  On a cold start the topic is looked up once, under the name held
    by the environment variable [SNS_TOPIC_PARAM_NAME] or, when it is unset,
    under [ec2-notification-sns].  When the lookup returns, the run is the
    lookup followed by the run of the handler, and every notification of the
    run is published to the topic the lookup returned. *)
Theorem cold_start_uses_looked_up_topic (P : platform) (Ev Ctx : Type)
    (event : Ev) (context : Ctx) (w : world) (arn : string) :
  get_parameter P
    match environ P "SNS_TOPIC_PARAM_NAME" with
    | Some name => name
    | None => "ec2-notification-sns"
    end = inr arn ->
  cold_start P event context w =
  (outcome (lambda_handler P arn event context w),
   final (lambda_handler P arn event context w),
   GetParameter
     match environ P "SNS_TOPIC_PARAM_NAME" with
     | Some name => name
     | None => "ec2-notification-sns"
     end
   :: effects (lambda_handler P arn event context w)) /\
  (forall topic subject message,
      In (Publish topic subject message)
         (effects (cold_start P event context w)) ->
      topic = arn).
Proof.
  intros Hp.
  assert (Hrun :
    cold_start P event context w =
    (outcome (lambda_handler P arn event context w),
     final (lambda_handler P arn event context w),
     GetParameter
       match environ P "SNS_TOPIC_PARAM_NAME" with
       | Some name => name
       | None => "ec2-notification-sns"
       end
     :: effects (lambda_handler P arn event context w))).
  { cbv [cold_start get_sns_topic_arn try_except bind ssm_get_parameter
         get_default]. rewrite Hp.
    now destruct (lambda_handler P arn event context w) as [[r w1] t1]. }
  split; [exact Hrun|].
  intros topic subject message. rewrite Hrun. cbn [effects snd In].
  intros [H|H]; [discriminate|].
  exact (handler_publishes_to P arn Ev Ctx event context w _ _ _ H).
Qed.

Lemma cold_start_uses_looked_up_topic_witness :
  publish_calls
    (effects (cold_start (healthy morning [stopped_box]) tt tt boot)) <> [] /\
  forall topic subject message,
    In (Publish topic subject message)
       (effects (cold_start (healthy morning [stopped_box]) tt tt boot)) ->
    topic = sample_arn.
Proof.
  split; [vm_compute; discriminate|].
  apply (cold_start_uses_looked_up_topic (healthy morning [stopped_box])
           unit unit tt tt boot sample_arn).
  reflexivity.
Defined.

(** ** Failure reports *)

Lemma infixb_here2 (a b m : string) : infixb (a ++ b) (a ++ b ++ m) = true.
Proof. rewrite <- append_assoc. apply infixb_here. Qed.

Lemma failure_report_lines (id name reg type previous env own exec dur e : string) :
  let message :=
    failure_message None id name reg type previous env own exec dur e in
  has_line "Action        : " "N/A" message /\
  has_line "Instance ID   : " id message /\
  has_line "Previous State: " previous message /\
  infixb ("Current State : ERROR" ++ nl) message = true /\
  infixb ("Result        : FAILURE" ++ nl) message = true /\
  infixb ("Error         : " ++ e) message = true.
Proof.
  cbv zeta. unfold has_line, failure_message. cbn [or_else].
  repeat split;
    repeat first
      [ apply infixb_here3 | apply infixb_here2 | apply infixb_refl
      | apply infixb_skip ].
Qed.

(** X8.  When the start or the stop call of an instance raises [e], the pass
    over the instance still returns; it logs the error with the identifier
    of the instance and publishes exactly one notification.  The subject of
    that notification is [EC2 Instance FAILED] and its message has the action
    [N/A] (the script sets the action only after the call has returned), the
    identifier, the state read from the listing as previous state, the
    current state [ERROR], the result [FAILURE] and the text of [e]. *)
Theorem failure_report (P : platform) (arn : string) (start_time : datetime)
    (i : instance) (w : world) (e : exn) :
  (in_workday (dt_time (utcnow P (clock_reads w))) = true /\
   Name (State i) = "stopped" /\
   start_instances P (state_changes w) [InstanceId i] = Some e) \/
  (in_workday (dt_time (utcnow P (clock_reads w))) = false /\
   Name (State i) = "running" /\
   stop_instances P (state_changes w) [InstanceId i] = Some e) ->
  outcome (process_instance P arn start_time i w) = inr tt /\
  In (LogError ("Error processing instance " ++ InstanceId i ++ ": " ++ e))
     (effects (process_instance P arn start_time i w)) /\
  exists message,
    publish_calls (effects (process_instance P arn start_time i w)) =
    [Publish arn "EC2 Instance FAILED" message] /\
    has_line "Action        : " "N/A" message /\
    has_line "Instance ID   : " (InstanceId i) message /\
    has_line "Previous State: " (Name (State i)) message /\
    infixb ("Current State : ERROR" ++ nl) message = true /\
    infixb ("Result        : FAILURE" ++ nl) message = true /\
    infixb ("Error         : " ++ e) message = true.
Proof.
  destruct w as [c s p]. cbn [clock_reads state_changes].
  intros [(Hw & Hs & Hc)|(Hw & Hs & Hc)].
  - use_run (process_start_raises P arn start_time i c s p e Hw Hs Hc).
    split; [reflexivity|]. split; [cbn; tauto|].
    eexists. split.
    + cbn [effects snd publish_calls List.filter is_publish].
      rewrite sent_log_is_publish. reflexivity.
    + rewrite Hs. apply failure_report_lines.
  - use_run (process_stop_raises P arn start_time i c s p e Hw Hs Hc).
    split; [reflexivity|]. split; [cbn; tauto|].
    eexists. split.
    + cbn [effects snd publish_calls List.filter is_publish].
      rewrite sent_log_is_publish. reflexivity.
    + rewrite Hs. apply failure_report_lines.
Qed.

Lemma failure_report_witness :
  exists message,
    publish_calls
      (effects (process_instance (all_refused evening [running_box]) sample_arn
                  evening running_box boot)) =
    [Publish sample_arn "EC2 Instance FAILED" message] /\
    has_line "Action        : " "N/A" message /\
    infixb ("Error         : " ++ "UnauthorizedOperation") message = true.
Proof.
  destruct (failure_report (all_refused evening [running_box]) sample_arn
              evening running_box boot "UnauthorizedOperation"
              (or_intror (conj eq_refl (conj eq_refl eq_refl))))
    as (_ & _ & message & Hpub & Hact & _ & _ & _ & _ & Herr).
  exists message. split; [exact Hpub|]. split; [exact Hact | exact Herr].
Defined.

(** ** Repeated tags *)

Lemma tag_loop_last (key : string) (field : tag_vars -> string)
    (kept : forall v t, Key t <> key -> field (read_tag v t) = field v)
    (assigned : forall v x, field (read_tag v (mk_tag key x)) = x)
    (pre post : list tag) (x : string) (v : tag_vars) :
  ~ In key (map Key post) ->
  field (fold_left read_tag (pre ++ mk_tag key x :: post)%list v) = x.
Proof.
  intros Hpost. rewrite fold_left_app. cbn [fold_left].
  rewrite (tag_loop_absent key field kept post _ Hpost). apply assigned.
Qed.

(** X9.  When a key occurs in several tags of an instance, the script keeps
    the value of the last of them: the name, the environment and the owner
    of the report are the values of the last tags with the keys [Name],
    [Environment] and [Owner]. *)
Theorem last_tag_wins (i : instance) (pre post : list tag) (key x : string) :
  Tags i = Some (pre ++ mk_tag key x :: post)%list ->
  ~ In key (map Key post) ->
  (key = "Name" -> instance_name (read_tags i) = x) /\
  (key = "Environment" -> environment (read_tags i) = x) /\
  (key = "Owner" -> owner (read_tags i) = x).
Proof.
  intros Ht Hpost. unfold read_tags. rewrite Ht.
  split; [|split]; intros ->.
  - now apply (tag_loop_last "Name" instance_name read_tag_name_kept).
  - now apply (tag_loop_last "Environment" environment
                 read_tag_environment_kept).
  - now apply (tag_loop_last "Owner" owner read_tag_owner_kept).
Qed.

Lemma last_tag_wins_witness :
  instance_name
    (read_tags
       (mk_instance "i-0a1b2c3d" (mk_state "stopped") None None
          (Some [mk_tag "Name" "old-name"; mk_tag "Owner" "sneha";
                 mk_tag "Name" "new-name"; mk_tag "Reboot" "WORKDAY"]))) =
  "new-name".
Proof.
  apply (proj1 (last_tag_wins
                  (mk_instance "i-0a1b2c3d" (mk_state "stopped") None None
                     (Some [mk_tag "Name" "old-name"; mk_tag "Owner" "sneha";
                            mk_tag "Name" "new-name"; mk_tag "Reboot" "WORKDAY"]))
                  [mk_tag "Name" "old-name"; mk_tag "Owner" "sneha"]
                  [mk_tag "Reboot" "WORKDAY"] "Name" "new-name" eq_refl
                  (fun H => match H with
                            | or_introl E => ltac:(discriminate E)
                            | or_intror F => F
                            end))).
  reflexivity.
Defined.

(** ** The window, again *)

Lemma in_workday_minutes_witness :
  in_workday (mk_time 7 59 59 123) = true /\
  in_workday (mk_time 8 0 0 0) = false.
Proof.
  split.
  - apply (proj2 (in_workday_minutes (mk_time 7 59 59 123)
                    ltac:(cbn; lia))).
    cbn. lia.
  - destruct (in_workday (mk_time 8 0 0 0)) eqn:E; [|reflexivity].
    apply (proj1 (in_workday_minutes (mk_time 8 0 0 0) ltac:(cbn; lia))) in E.
    cbn in E. lia.
Defined.

(** ** Durations *)

Lemma pass_duration (P : platform) (arn : string) (start_time : datetime)
    (i : instance) (w : world) (topic subject message : string) :
  In (Publish topic subject message)
     (effects (process_instance P arn start_time i w)) ->
  exists n,
    clock_reads w < n /\
    infixb ("Duration      : " ++ seconds_2f P start_time (utcnow P n)
            ++ " seconds") message = true.
Proof.
  destruct w as [c s p]. cbn [clock_reads].
  instance_cases P arn start_time i c s p; cbn [effects snd In].
  - intros [H|[H|[H|[H|[H|[]]]]]]; try discriminate;
      try (now apply sent_log_not_publish in H).
    inversion H; subst. exists (S (S c)). split; [lia | find_line].
  - intros [H|[H|[H|[H|[]]]]]; try discriminate;
      try (now apply sent_log_not_publish in H).
    inversion H; subst. exists (S c). split; [lia | find_line].
  - now intros [H|[]].
  - intros [H|[H|[H|[H|[H|[]]]]]]; try discriminate;
      try (now apply sent_log_not_publish in H).
    inversion H; subst. exists (S (S c)). split; [lia | find_line].
  - intros [H|[H|[H|[H|[]]]]]; try discriminate;
      try (now apply sent_log_not_publish in H).
    inversion H; subst. exists (S c). split; [lia | find_line].
  - now intros [H|[]].
Qed.

(** X11.  The duration of every report of a run is counted from the first
    reading of the clock of the handler, taken before the instances are
    listed, to a reading taken during the pass over the instance: it is the
    time since the start of the run, not the time spent on the instance. *)
Theorem durations_count_from_run_start (P : platform) (arn : string)
    (Ev Ctx : Type) (event : Ev) (context : Ctx) (w : world)
    (topic subject message : string) :
  In (Publish topic subject message)
     (effects (lambda_handler P arn event context w)) ->
  exists n,
    infixb ("Duration      : "
            ++ seconds_2f P (utcnow P (clock_reads w)) (utcnow P n)
            ++ " seconds") message = true.
Proof.
  destruct (describe_instances P workday_filter) as [e|response] eqn:Hd.
  - rewrite (lambda_handler_listing_raises P arn Ev Ctx event context w e Hd).
    cbn [effects snd In]. intros [H|[H|[]]]; discriminate.
  - destruct (lambda_handler_passes P arn Ev Ctx event context w response Hd)
      as (chunks & -> & Hall).
    cbn [In]. intros [H|[H|H]]; try discriminate.
    apply in_app_or in H. destruct H as [H|[H|[]]]; [|discriminate].
    destruct (passes_in _ _ _ _ _ Hall H) as (i & w' & _ & Hev).
    destruct (pass_duration P arn _ i w' _ _ _ Hev) as (n & _ & Hn).
    now exists n.
Qed.

Lemma durations_count_from_run_start_witness :
  exists n,
    infixb ("Duration      : "
            ++ seconds_2f (healthy morning [stopped_box])
                 (utcnow (healthy morning [stopped_box]) (clock_reads boot))
                 (utcnow (healthy morning [stopped_box]) n)
            ++ " seconds")
      (success_message "STARTED" "i-0a1b2c3d" "build-box" "us-east-2" "t3.micro"
         "stopped" "running" "dev" "sneha"
         "2022-01-08T04:00:00.000000+00:00" "0.25") = true.
Proof.
  apply (durations_count_from_run_start (healthy morning [stopped_box])
           sample_arn unit unit tt tt boot sample_arn "EC2 Instance STARTED"
           (success_message "STARTED" "i-0a1b2c3d" "build-box" "us-east-2"
              "t3.micro" "stopped" "running" "dev" "sneha"
              "2022-01-08T04:00:00.000000+00:00" "0.25")).
  vm_compute. tauto.
Defined.

(** X12.  In the report of a failure the execution time and the duration
    come from two readings of the clock, one after the other, both taken
    after the call raised; the report of a success uses one reading for
    both. *)
Theorem failure_report_times (P : platform) (arn : string)
    (start_time : datetime) (i : instance) (w : world) (e : exn) :
  (in_workday (dt_time (utcnow P (clock_reads w))) = true /\
   Name (State i) = "stopped" /\
   start_instances P (state_changes w) [InstanceId i] = Some e) \/
  (in_workday (dt_time (utcnow P (clock_reads w))) = false /\
   Name (State i) = "running" /\
   stop_instances P (state_changes w) [InstanceId i] = Some e) ->
  exists message,
    publish_calls (effects (process_instance P arn start_time i w)) =
    [Publish arn "EC2 Instance FAILED" message] /\
    has_line "Execution Time: "
      (isoformat P (utcnow P (S (clock_reads w)))) message /\
    infixb ("Duration      : "
            ++ seconds_2f P start_time (utcnow P (S (S (clock_reads w))))
            ++ " seconds") message = true /\
    clock_reads (final (process_instance P arn start_time i w)) =
    S (S (S (clock_reads w))).
Proof.
  destruct w as [c s p]. cbn [clock_reads state_changes].
  intros [(Hw & Hs & Hc)|(Hw & Hs & Hc)].
  - use_run (process_start_raises P arn start_time i c s p e Hw Hs Hc).
    eexists. split.
    + cbn [effects snd publish_calls List.filter is_publish].
      rewrite sent_log_is_publish. reflexivity.
    + split; [find_line|]. split; [find_line | reflexivity].
  - use_run (process_stop_raises P arn start_time i c s p e Hw Hs Hc).
    eexists. split.
    + cbn [effects snd publish_calls List.filter is_publish].
      rewrite sent_log_is_publish. reflexivity.
    + split; [find_line|]. split; [find_line | reflexivity].
Qed.

Lemma failure_report_times_witness :
  exists message,
    publish_calls
      (effects (process_instance (all_refused morning [stopped_box]) sample_arn
                  morning stopped_box boot)) =
    [Publish sample_arn "EC2 Instance FAILED" message] /\
    clock_reads
      (final (process_instance (all_refused morning [stopped_box]) sample_arn
                morning stopped_box boot)) = 3.
Proof.
  destruct (failure_report_times (all_refused morning [stopped_box]) sample_arn
              morning stopped_box boot "UnauthorizedOperation"
              (or_introl (conj eq_refl (conj eq_refl eq_refl))))
    as (message & Hpub & _ & _ & Hclock).
  exists message. split; [exact Hpub | exact Hclock].
Defined.
